(** * pytest_mock.py: the proxy-server integration harness

    A shallow embedding of [src/pytest_mock.py]: the structured logger
    [ai_log], the error classifier [ai_dynamic_error_handling], the HTTP
    action helpers [new_user], [get_user_info], [chat_completion],
    [chat_completion_streaming] and the test scenarios built from them.

    The Python coroutines are state-passing functions over a [trace]: the
    chronological list of the calls the program makes to the outside world
    (the [logging] module, the aiohttp session, [asyncio.sleep], the OpenAI
    client).  A coroutine either returns a value or raises; the trace
    survives an exception, as the calls made before it have happened. *)

From Stdlib Require Import ZArith List String Ascii Bool Lia.
From Stdlib Require Import DecimalString Permutation.
From Stdlib Require DecimalZ DecimalPos.
Import ListNotations.
Local Open Scope string_scope.
Local Open Scope Z_scope.

(** ** Python values *)

(** The values [json.loads] produces (with [int] for numbers: floats are
    outside the model), which are also the values the helpers return. *)
#[warnings="-register-all"]
Inductive pyval : Type :=
| PNone
| PBool (b : bool)
| PInt (z : Z)
| PStr (s : string)
| PList (xs : list pyval)
| PDict (kvs : list (string * pyval)).

(** [str(n)] for an [int]. *)
Definition str_int (z : Z) : string := NilZero.string_of_int (Z.to_int z).

(** The newline of the literal [\n]. *)
Definition nl : string := String (ascii_of_nat 10) EmptyString.

(** [d.get(k)] on an insertion-ordered dict with [str] keys. *)
Fixpoint dict_lookup {A : Type} (k : string) (d : list (string * A)) : option A :=
  match d with
  | [] => None
  | (k', v) :: d' => if String.eqb k k' then Some v else dict_lookup k d'
  end.

(** [d[k] = v]: replaces the value of an existing key in place, appends a
    new key at the end. *)
Fixpoint dict_set {A : Type} (k : string) (v : A) (d : list (string * A))
  : list (string * A) :=
  match d with
  | [] => [(k, v)]
  | (k', v') :: d' =>
      if String.eqb k k' then (k, v) :: d' else (k', v') :: dict_set k v d'
  end.

(** [a == b] on the modelled values: [bool] is a subclass of [int]
    ([True == 1]), lists compare element by element, dicts compare as
    mappings whatever the order of their keys. *)
Fixpoint py_eqb (a b : pyval) {struct a} : bool :=
  match a, b with
  | PNone, PNone => true
  | PBool x, PBool y => Bool.eqb x y
  | PBool x, PInt y => Z.eqb (Z.b2z x) y
  | PInt x, PBool y => Z.eqb x (Z.b2z y)
  | PInt x, PInt y => Z.eqb x y
  | PStr x, PStr y => String.eqb x y
  | PList xs, PList ys =>
      (fix go (l : list pyval) (r : list pyval) {struct l} : bool :=
         match l, r with
         | [], [] => true
         | x :: l', y :: r' => py_eqb x y && go l' r'
         | _, _ => false
         end) xs ys
  | PDict xs, PDict ys =>
      Nat.eqb (List.length xs) (List.length ys)
      && (fix go (l : list (string * pyval)) {struct l} : bool :=
            match l with
            | [] => true
            | (k, v) :: l' =>
                match dict_lookup k ys with
                | Some w => py_eqb v w && go l'
                | None => false
                end
            end) xs
  | _, _ => false
  end.

(** [a != b]. *)
Definition py_ne (a b : pyval) : bool := negb (py_eqb a b).

(** ** Exceptions *)

Inductive exn : Type :=
| Exception (msg : string)      (* [raise Exception(msg)] *)
| AssertionError                (* a failed [assert] *)
| KeyError (key : string)       (* [d[key]] on a dict without [key] *)
| TypeError                     (* [v[key]] on a value that is not a dict *)
| JSONDecodeError               (* [response.json()] on a body that does not parse *)
| APIError (msg : string).      (* an error of the OpenAI client *)

(** ** The outside world *)

(** The four functions of the [logging] module the program calls. *)
Inductive loglevel : Type := DEBUG | INFO | WARNING | ERROR.

(** [logging.DEBUG = 10], [INFO = 20], [WARNING = 30], [ERROR = 40]. *)
Definition levelno (l : loglevel) : Z :=
  match l with DEBUG => 10 | INFO => 20 | WARNING => 30 | ERROR => 40 end.

Inductive http_method : Type := GET | POST.

(** [f"Bearer {token}"]: the interpolated value is kept as it is. *)
Inductive bearer : Type := Bearer (token : pyval).

Record headers : Type := mkHeaders {
  Authorization : bearer;
  Content_Type : string
}.

Record request : Type := mkRequest {
  rq_method : http_method;
  rq_url : string;
  rq_headers : headers;
  rq_json : option (list (string * pyval))   (* the [json=] argument of a POST *)
}.

(** What the program reads of an aiohttp response: [response.status],
    [await response.text()], and [await response.json()], which raises when
    the body does not parse. *)
Record response : Type := mkResponse {
  status : Z;
  text : string;
  json : option pyval
}.

(** The keyword arguments of [client.chat.completions.create]. *)
Record chat_data : Type := mkChatData {
  cd_model : string;
  cd_messages : list (list (string * string));
  cd_stream : bool
}.

(** [AsyncOpenAI(api_key=..., base_url=...)]. *)
Record AsyncOpenAI : Type := mkAsyncOpenAI {
  api_key : string;
  base_url : string
}.

Inductive event : Type :=
| Logged (lvl : loglevel) (msg : string)         (* [logging.<lvl>(msg)] *)
| Http (rq : request) (rs : response)            (* one request and its response *)
| Slept (secs : Z)                               (* [asyncio.sleep(secs)] *)
| Completion (c : AsyncOpenAI) (d : chat_data).  (* one [create] call *)

Definition trace : Type := list event.

(** An [aiohttp.ClientSession]: the remote server answers a request as it
    pleases, possibly depending on everything that happened before. *)
Record ClientSession : Type := mkSession {
  serve : trace -> request -> response
}.

(** ** Coroutines *)

Inductive outcome (A : Type) : Type :=
| Returns (a : A)
| Raises (e : exn)
| Running.              (* a loop that has not finished within the given bound *)
Arguments Returns {A} a.
Arguments Raises {A} e.
Arguments Running {A}.

Definition M (A : Type) : Type := trace -> outcome A * trace.

Definition ret {A} (a : A) : M A := fun t => (Returns a, t).

Definition bind {A B} (m : M A) (k : A -> M B) : M B :=
  fun t =>
    match m t with
    | (Returns a, t') => k a t'
    | (Raises e, t') => (Raises e, t')
    | (Running, t') => (Running, t')
    end.

Definition raise {A} (e : exn) : M A := fun t => (Raises e, t).

Definition emit (e : event) : M unit := fun t => (Returns tt, (t ++ [e])%list).

Notation "x <- m ;; k" := (bind m (fun x => k))
  (at level 61, m at next level, right associativity).
Notation "m ;; k" := (bind m (fun _ => k))
  (at level 61, right associativity).

(** [assert b]. *)
Definition py_assert (b : bool) : M unit :=
  if b then ret tt else raise AssertionError.

(** [v[key]] with a [str] key. *)
Definition subscript (v : pyval) (key : string) : M pyval :=
  match v with
  | PDict d =>
      match dict_lookup key d with
      | Some x => ret x
      | None => raise (KeyError key)
      end
  | _ => raise TypeError
  end.

(** [await response.json()]. *)
Definition response_json (r : response) : M pyval :=
  match json r with
  | Some v => ret v
  | None => raise JSONDecodeError
  end.

(** [async with session.post(url, headers=headers, json=data) as response]. *)
Definition session_post (s : ClientSession) (url : string) (h : headers)
    (data : list (string * pyval)) : M response :=
  fun t =>
    let rq := mkRequest POST url h (Some data) in
    let rs := serve s t rq in
    (Returns rs, (t ++ [Http rq rs])%list).

(** [async with session.get(url, headers=headers) as response]. *)
Definition session_get (s : ClientSession) (url : string) (h : headers)
  : M response :=
  fun t =>
    let rq := mkRequest GET url h None in
    let rs := serve s t rq in
    (Returns rs, (t ++ [Http rq rs])%list).

(** ** The structured logger (lines 13-24) *)

(** [logging.basicConfig(level=logging.INFO, ...)]: the threshold of the
    root logger. *)
Definition root_level : loglevel := INFO.

(** The records of a trace that reach the process output. *)
Definition written (t : trace) : list (loglevel * string) :=
  flat_map (fun e =>
    match e with
    | Logged l m => if levelno root_level <=? levelno l then [(l, m)] else []
    | _ => []
    end) t.

Definition ai_log (message : string) (level : string) : M unit :=
  if String.eqb level "info" then emit (Logged INFO message)
  else if String.eqb level "error" then emit (Logged ERROR message)
  else if String.eqb level "debug" then emit (Logged DEBUG message)
  else emit (Logged WARNING
               ("Unknown log level: " ++ level ++ ". Message: " ++ message)).

(** ** The error classifier (lines 27-38) *)

Definition error_messages : list (Z * string) :=
  [ (400, "Bad Request: The server could not understand the request.");
    (401, "Unauthorized: Access is denied due to invalid credentials.");
    (403, "Forbidden: You don't have permission to access this resource.");
    (404, "Not Found: The requested resource could not be found.");
    (500, "Internal Server Error: The server encountered an error.") ].

(** [d.get(k, default)] on a dict with [int] keys. *)
Fixpoint dict_get (d : list (Z * string)) (k : Z) (default : string) : string :=
  match d with
  | [] => default
  | (k', v) :: d' => if Z.eqb k k' then v else dict_get d' k default
  end.

(** [error_messages.get(status_code, f"Unexpected error: {status_code}")]
    (line 36). *)
Definition error_message_for (status_code : Z) : string :=
  dict_get error_messages status_code
    ("Unexpected error: " ++ str_int status_code).

Definition ai_dynamic_error_handling (status_code : Z) (response_text : string)
  : M pyval :=
  let error_message := error_message_for status_code in
  ai_log ("Error occurred: " ++ error_message ++ nl ++ "Response: " ++ response_text)
         "error" ;;
  ret (PDict [("status_code", PInt status_code);
              ("error_message", PStr error_message)]).

(** ** Action helpers *)

(** The [data] dict of [new_user] (lines 44-53). *)
Definition new_user_data (user_id budget budget_duration : pyval)
  : list (string * pyval) :=
  let data :=
    [ ("models", PList [PStr "azure-models"]);
      ("aliases", PDict [("mistral-7b", PStr "gpt-3.5-turbo")]);
      ("duration", PNone);
      ("max_budget", budget);
      ("budget_duration", budget_duration) ] in
  match user_id with
  | PNone => data
  | _ => dict_set "user_id" user_id data
  end.

Definition new_user_url : string := "http://0.0.0.0:4000/user/new".

Definition new_user_headers : headers :=
  mkHeaders (Bearer (PStr "sk-1234")) "application/json".

(** [new_user(session, i, user_id=None, budget=None, budget_duration=None)]
    (lines 41-66); an omitted keyword argument is [PNone]. *)
Definition new_user (session : ClientSession) (i : Z)
    (user_id budget budget_duration : pyval) : M pyval :=
  let url := new_user_url in
  let headers := new_user_headers in
  let data := new_user_data user_id budget budget_duration in
  response <- session_post session url headers data ;;
  let status := status response in
  let response_text := text response in
  ai_log ("Response " ++ str_int i ++ " (Status code: " ++ str_int status
            ++ "): " ++ response_text) "info" ;;
  if negb (status =? 200) then
    ai_dynamic_error_handling status response_text ;;
    raise (Exception ("Request " ++ str_int i
                        ++ " did not return a 200 status code: "
                        ++ str_int status))
  else
    response_json response.

Definition user_info_url (get_user : string) (view_all : option bool) : string :=
  match view_all with
  | Some true => "http://0.0.0.0:4000/user/info"
  | _ => "http://0.0.0.0:4000/user/info?user_id=" ++ get_user
  end.

(** [get_user_info(session, get_user, call_user, view_all=None)]
    (lines 79-104).  [get_user] is a [str] at every call of the module;
    [call_user] is a literal or the ["key"] entry of a parsed body.  In
    [call_user != get_user] a value that is not a [str] differs from
    [get_user], and a [str] is compared character by character, so on the
    raising branch [call_user] is the string [c] that the message prints. *)
Definition get_user_info (session : ClientSession) (get_user : string)
    (call_user : pyval) (view_all : option bool) : M pyval :=
  let url := user_info_url get_user view_all in
  let headers := mkHeaders (Bearer call_user) "application/json" in
  response <- session_get session url headers ;;
  let status := status response in
  let response_text := text response in
  ai_log ("User info response for " ++ get_user ++ ": " ++ response_text) "info" ;;
  if negb (status =? 200) then
    ai_dynamic_error_handling status response_text ;;
    match call_user with
    | PStr c =>
        if negb (String.eqb c get_user) then ret (PInt status)
        else
          ai_log ("call_user: " ++ c ++ "; get_user: " ++ get_user) "error" ;;
          raise (Exception ("Request did not return a 200 status code: "
                              ++ str_int status))
    | _ => ret (PInt status)
    end
  else
    response_json response.

(** The endpoint behind [client.chat.completions.create]: what the log
    shows of the completion object ([complete]) and of the chunks of a
    stream, which the server ends ([chunks]).  A stream that breaks midway
    is outside the model. *)
Record OpenAIBackend : Type := mkBackend {
  complete : trace -> AsyncOpenAI -> chat_data -> exn + string;
  chunks : trace -> AsyncOpenAI -> chat_data -> exn + list string
}.

Definition chat_messages (now : string) : list (list (string * string)) :=
  [ [("role", "system"); ("content", "You are a helpful assistant")];
    [("role", "user"); ("content", "Hello! " ++ now)] ].

Definition proxy_base_url : string := "http://0.0.0.0:4000".

(** [await client.chat.completions.create] on the keyword arguments [data], without [stream]. *)
Definition create (backend : OpenAIBackend) (client : AsyncOpenAI)
    (data : chat_data) : M string :=
  fun t =>
    match complete backend t client data with
    | inr r => (Returns r, (t ++ [Completion client data])%list)
    | inl e => (Raises e, (t ++ [Completion client data])%list)
    end.

(** [await client.chat.completions.create] on the keyword arguments [data], with [stream=True]. *)
Definition create_stream (backend : OpenAIBackend) (client : AsyncOpenAI)
    (data : chat_data) : M (list string) :=
  fun t =>
    match chunks backend t client data with
    | inr cs => (Returns cs, (t ++ [Completion client data])%list)
    | inl e => (Raises e, (t ++ [Completion client data])%list)
    end.

(** [for x in xs: body(x)]. *)
Fixpoint for_each {A} (xs : list A) (body : A -> M unit) : M unit :=
  match xs with
  | [] => ret tt
  | x :: xs' => body x ;; for_each xs' body
  end.

(** [chat_completion(session, key, model="gpt-4")] (lines 177-190); [now]
    is the text of [time.time()]. *)
Definition chat_completion (backend : OpenAIBackend) (now : string)
    (session : ClientSession) (key : string) (model : string) : M unit :=
  let client := mkAsyncOpenAI key proxy_base_url in
  let messages := chat_messages now in
  let data := mkChatData model messages false in
  response <- create backend client data ;;
  ai_log ("Chat completion response: " ++ response) "info".

(** [chat_completion_streaming(session, key, model="gpt-4")]
    (lines 193-204). *)
Definition chat_completion_streaming (backend : OpenAIBackend) (now : string)
    (session : ClientSession) (key : string) (model : string) : M unit :=
  let client := mkAsyncOpenAI key proxy_base_url in
  let messages := chat_messages now in
  let data := mkChatData model messages true in
  response <- create_stream backend client data ;;
  for_each response (fun chunk =>
    ai_log ("Streaming chunk received: " ++ chunk) "info").

(** ** Test scenarios *)

(** [range(lo, hi)]. *)
Definition range (lo hi : Z) : list Z :=
  map (fun k => lo + Z.of_nat k) (seq 0 (Z.to_nat (hi - lo))).

(** [[new_user(session, i) for i in range(1, 11)]] (line 75). *)
Definition user_new_tasks (session : ClientSession) : list (M pyval) :=
  map (fun i => new_user session i PNone PNone PNone) (range 1 11).

Fixpoint done_lookup {A} (k : nat) (done : list (nat * A)) : option A :=
  match done with
  | [] => None
  | (k', a) :: done' => if Nat.eqb k k' then Some a else done_lookup k done'
  end.

(** What a gather knows of its tasks while it waits. *)
Record gathered (A : Type) : Type := mkGathered {
  finished : list nat;           (* positions of the tasks that have ended, latest first *)
  results : list (nat * A);      (* results of the tasks that returned *)
  first_exception : option exn   (* exception of the first task that raised *)
}.
Arguments mkGathered {A} _ _ _.
Arguments finished {A} _.
Arguments results {A} _.
Arguments first_exception {A} _.

(** The tasks of a gather on the single-threaded event loop.  A [new_user]
    coroutine suspends only while it waits for the network; once its
    response is read it runs to its end without yielding, so the tasks
    append their events one after the other, in the order in which their
    responses arrive.  [schedule] lists the positions of the tasks in that
    order, up to the moment the awaiting coroutine goes on; a task ends
    once, and a position that names no task or a task that has ended is
    passed over.  A task that raises does not stop the others: those whose
    responses have arrived still run to their end. *)
Fixpoint run_tasks {A} (tasks : list (M A)) (schedule : list nat)
    (g : gathered A) (t : trace) : gathered A * trace :=
  match schedule with
  | [] => (g, t)
  | k :: rest =>
      if existsb (Nat.eqb k) (finished g) then run_tasks tasks rest g t
      else
        match nth_error tasks k with
        | None => run_tasks tasks rest g t
        | Some task =>
            match task t with
            | (Returns a, t1) =>
                run_tasks tasks rest
                  (mkGathered (k :: finished g) ((k, a) :: results g)
                              (first_exception g)) t1
            | (Raises e, t1) =>
                run_tasks tasks rest
                  (mkGathered (k :: finished g) (results g)
                              (match first_exception g with
                               | Some e0 => Some e0
                               | None => Some e
                               end)) t1
            | (Running, t1) =>
                run_tasks tasks rest
                  (mkGathered (k :: finished g) (results g) (first_exception g)) t1
            end
        end
  end.

(** [await asyncio.gather] on the unpacked [tasks].  The awaiting coroutine
    goes on with the exception of the first task that raised, if one did;
    otherwise it goes on only when every task has returned, with the
    results in the order of the tasks, and until then it waits. *)
Definition gather {A} (tasks : list (M A)) (schedule : list nat) : M (list A) :=
  fun t =>
    let (g, t') := run_tasks tasks schedule (mkGathered [] [] None) t in
    match first_exception g with
    | Some e => (Raises e, t')
    | None =>
        if Nat.eqb (List.length (results g)) (List.length tasks) then
          (Returns (flat_map (fun k => match done_lookup k (results g) with
                                       | Some a => [a]
                                       | None => []
                                       end) (seq 0 (List.length tasks))), t')
        else (Running, t')
    end.

(** [test_user_new] (lines 69-76). *)
Definition test_user_new (session : ClientSession) (schedule : list nat) : M unit :=
  let tasks := user_new_tasks session in
  gather tasks schedule ;;
  ret tt.

(** [f"krrish_{time.time()}@berri.ai"]; [now] is the text of [time.time()]. *)
Definition krrish (now : string) : string := "krrish_" ++ now ++ "@berri.ai".

(** [test_user_info] (lines 107-129). *)
Definition test_user_info (session : ClientSession) (now : string) : M unit :=
  let get_user := krrish now in
  key_gen <- new_user session 0 (PStr get_user) PNone PNone ;;
  key <- subscript key_gen "key" ;;
  get_user_info session get_user (PStr "sk-1234") None ;;
  get_user_info session get_user key None ;;
  key_gen <- new_user session 0 PNone PNone PNone ;;
  random_key <- subscript key_gen "key" ;;
  status <- get_user_info session get_user random_key None ;;
  py_assert (py_eqb status (PInt 403)).

(** The steps of [test_user_info] before its last lookup (lines 115-125):
    they leave the key of the unrelated user. *)
Definition test_user_info_setup (session : ClientSession) (now : string)
  : M pyval :=
  let get_user := krrish now in
  key_gen <- new_user session 0 (PStr get_user) PNone PNone ;;
  key <- subscript key_gen "key" ;;
  get_user_info session get_user (PStr "sk-1234") None ;;
  get_user_info session get_user key None ;;
  key_gen <- new_user session 0 PNone PNone PNone ;;
  subscript key_gen "key".

(** [test_user_update] (lines 132-139): the body is [pass]. *)
Definition test_user_update : M unit := ret tt.

(** The [while i < 3] loop of [test_users_budgets_reset] (lines 163-173),
    run for at most [fuel] iterations.  The [except] branch evaluates
    [i + 1] and drops the value: [i] is the same at the next test. *)
Fixpoint poll_loop (session : ClientSession) (get_user : string) (key : pyval)
    (reset_at_init_value : pyval) (fuel : nat) (i : Z)
    (reset_at_new_value : pyval) : M pyval :=
  if i <? 3 then
    match fuel with
    | O => fun t => (Running, t)
    | S fuel' =>
        emit (Slept 70) ;;
        user_info <- get_user_info session get_user key None ;;
        info <- subscript user_info "user_info" ;;
        reset_at_new_value <- subscript info "budget_reset_at" ;;
        if py_ne reset_at_init_value reset_at_new_value then
          ret reset_at_new_value
        else
          let _ := i + 1 in
          poll_loop session get_user key reset_at_init_value fuel' i
                    reset_at_new_value
    end
  else ret reset_at_new_value.

(** [test_users_budgets_reset] (lines 144-174). *)
Definition test_users_budgets_reset (session : ClientSession) (now : string)
    (fuel : nat) : M unit :=
  let get_user := krrish now in
  key_gen <- new_user session 0 (PStr get_user) (PInt 10) (PStr "5s") ;;
  key <- subscript key_gen "key" ;;
  user_info <- get_user_info session get_user key None ;;
  info <- subscript user_info "user_info" ;;
  reset_at_init_value <- subscript info "budget_reset_at" ;;
  let i := 0 in
  let reset_at_new_value := PNone in
  reset_at_new_value <-
    poll_loop session get_user key reset_at_init_value fuel i reset_at_new_value ;;
  py_assert (py_ne reset_at_init_value reset_at_new_value).

(** ** A stand-in for the proxy server

    Used to run the scenarios: every [POST] creates a user and issues a
    fresh key; a [GET] is answered by the bearer token (the admin token,
    the key issued to the user the URL names, or any other token); the
    reset timestamp of a budget changes after a given number of sleeps, or
    never. *)

Record stub_config : Type := mkStub {
  admin_status : Z;              (* status of a lookup with the admin token *)
  self_status : Z;               (* status of a lookup with the user's own key *)
  other_status : Z;              (* status of a lookup with any other token *)
  resets_after : option nat      (* sleeps before the reset timestamp changes *)
}.

Definition count_slept (t : trace) : nat :=
  List.length (filter (fun e => match e with Slept _ => true | _ => false end) t).

Definition issued_key (t : trace) : pyval :=
  PStr ("sk-user-" ++ str_int (Z.of_nat (List.length t))).

(** The key issued by the [POST] that created the user a lookup URL names. *)
Fixpoint own_key (t : trace) (url : string) : option pyval :=
  match t with
  | [] => None
  | Http rq rs :: t' =>
      match rq_json rq, json rs with
      | Some d, Some body =>
          match dict_lookup "user_id" d, body with
          | Some (PStr u), PDict kvs =>
              if String.eqb (user_info_url u None) url
              then dict_lookup "key" kvs
              else own_key t' url
          | _, _ => own_key t' url
          end
      | _, _ => own_key t' url
      end
  | _ :: t' => own_key t' url
  end.

Definition stub_info (cfg : stub_config) (t : trace) : pyval :=
  let reset_at :=
    match resets_after cfg with
    | Some n => if Nat.ltb (count_slept t) n
                then "2024-01-01T00:00:00" else "2024-01-01T00:00:05"
    | None => "2024-01-01T00:00:00"
    end in
  PDict [("user_info", PDict [("spend", PInt 0);
                              ("budget_reset_at", PStr reset_at)])].

Definition stub_answer (code : Z) (body : pyval) : response :=
  if code =? 200 then mkResponse 200 "ok" (Some body)
  else mkResponse code "error" None.

Definition stub_serve (cfg : stub_config) (t : trace) (rq : request) : response :=
  match rq_method rq with
  | POST => mkResponse 200 "created" (Some (PDict [("key", issued_key t)]))
  | GET =>
      let 'Bearer token := Authorization (rq_headers rq) in
      if py_eqb token (PStr "sk-1234") then
        stub_answer (admin_status cfg) (stub_info cfg t)
      else
        match own_key t (rq_url rq) with
        | Some k =>
            if py_eqb token k then stub_answer (self_status cfg) (stub_info cfg t)
            else stub_answer (other_status cfg) (stub_info cfg t)
        | None => stub_answer (other_status cfg) (stub_info cfg t)
        end
  end.

Definition stub_session (cfg : stub_config) : ClientSession :=
  mkSession (stub_serve cfg).

(** A session whose server gives the same answer to every request. *)
Definition answering (r : response) : ClientSession :=
  mkSession (fun _ _ => r).

(** A backend that answers every completion with the same text and every
    stream with the same chunks. *)
Definition stub_backend : OpenAIBackend :=
  mkBackend (fun _ _ _ => inr "ChatCompletion(id='c1')")
            (fun _ _ _ => inr ["chunk-1"; "chunk-2"]).

(** The requests of a trace, in order. *)
Definition requests (t : trace) : list request :=
  flat_map (fun e => match e with Http rq _ => [rq] | _ => [] end) t.

(** The exchanges of a trace, in order. *)
Definition exchanges (t : trace) : list (request * response) :=
  flat_map (fun e => match e with Http rq rs => [(rq, rs)] | _ => [] end) t.

(** A lookup request (lines 83-92). *)
Definition user_info_request (get_user : string) (call_user : pyval)
    (view_all : option bool) : request :=
  mkRequest GET (user_info_url get_user view_all)
            (mkHeaders (Bearer call_user) "application/json") None.

(** A creation request (lines 42-55). *)
Definition new_user_request (user_id budget budget_duration : pyval) : request :=
  mkRequest POST new_user_url new_user_headers
            (Some (new_user_data user_id budget budget_duration)).

(** An exchange of a creation without identifier that went through. *)
Definition created_without_id (x : request * response) : Prop :=
  fst x = new_user_request PNone PNone PNone
  /\ status (snd x) = 200 /\ json (snd x) <> None.

(** What holds of a gather of [user_new_tasks] started at the trace [t0]:
    every task that has ended has made one exchange, no task has ended
    twice, and an exception is recorded exactly when one of the exchanges
    is not a creation that went through. *)
Definition gather_inv (t0 : trace) (g : gathered pyval) (t : trace) : Prop :=
  exists xs,
    exchanges t = (exchanges t0 ++ xs)%list
    /\ List.length xs = List.length (finished g)
    /\ NoDup (finished g)
    /\ Forall (fun k => k < 10)%nat (finished g)
    /\ match first_exception g with
       | None => Forall created_without_id xs
                 /\ List.length (results g) = List.length xs
       | Some _ => ~ Forall created_without_id xs
       end.

(** ** The spend scenario *)

(** [a > b] on the modelled values, [None] when Python raises [TypeError]:
    numbers (with [bool] as 0 and 1) compare by value, strings by code
    point, lists at their first pair of elements that are not equal or
    else by length; [None], dicts and mixed kinds are not ordered. *)
Fixpoint py_gt (a b : pyval) {struct a} : option bool :=
  match a, b with
  | PBool x, PBool y => Some (Z.b2z y <? Z.b2z x)
  | PBool x, PInt y => Some (y <? Z.b2z x)
  | PInt x, PBool y => Some (Z.b2z y <? x)
  | PInt x, PInt y => Some (y <? x)
  | PStr x, PStr y =>
      Some (match String.compare x y with Gt => true | _ => false end)
  | PList xs, PList ys =>
      (fix go (l : list pyval) (r : list pyval) {struct l} : option bool :=
         match l, r with
         | [], _ => Some false
         | _ :: _, [] => Some true
         | x :: l', y :: r' => if py_eqb x y then go l' r' else py_gt x y
         end) xs ys
  | _, _ => None
  end.

(** [assert a > b]. *)
Definition assert_gt (a b : pyval) : M unit :=
  match py_gt a b with
  | Some c => py_assert c
  | None => raise TypeError
  end.

(** [user_info["user_info"]["spend"]] read off a response. *)
Definition spend_of (rs : response) : option pyval :=
  match json rs with
  | Some (PDict kvs) =>
      match dict_lookup "user_info" kvs with
      | Some (PDict info) => dict_lookup "spend" info
      | _ => None
      end
  | _ => None
  end.

(** [test_global_proxy_budget_update] (lines 207-238).  [str] is Python's
    [str] on the values read, [now1] and [now2] are the texts of
    [time.time()] at the two completion calls. *)
Definition test_global_proxy_budget_update (backend : OpenAIBackend)
    (str : pyval -> string) (now1 now2 : string) (session : ClientSession)
  : M unit :=
  let get_user := "litellm-proxy-budget" in
  user_info <- get_user_info session get_user (PStr "sk-1234") None ;;
  info <- subscript user_info "user_info" ;;
  original_spend <- subscript info "spend" ;;
  chat_completion backend now1 session "sk-1234" "gpt-4" ;;
  emit (Slept 5) ;;
  user_info <- get_user_info session get_user (PStr "sk-1234") None ;;
  info <- subscript user_info "user_info" ;;
  new_spend <- subscript info "spend" ;;
  ai_log ("new_spend: " ++ str new_spend ++ "; original_spend: "
            ++ str original_spend) "info" ;;
  assert_gt new_spend original_spend ;;
  chat_completion_streaming backend now2 session "sk-1234" "gpt-4" ;;
  emit (Slept 5) ;;
  user_info <- get_user_info session get_user (PStr "sk-1234") None ;;
  info <- subscript user_info "user_info" ;;
  new_new_spend <- subscript info "spend" ;;
  ai_log ("new_new_spend: " ++ str new_new_spend ++ "; new_spend: "
            ++ str new_spend) "info" ;;
  assert_gt new_new_spend new_spend.

(** The events of a trace other than the logging calls, in order. *)
Definition actions (t : trace) : trace :=
  filter (fun e => match e with Logged _ _ => false | _ => true end) t.

(** A server for the spend scenario: every lookup is answered 200 with a
    spend equal to the number of completions made so far. *)
Definition count_completions (t : trace) : nat :=
  List.length
    (filter (fun e => match e with Completion _ _ => true | _ => false end) t).

Definition spending_session : ClientSession :=
  mkSession (fun t _ =>
    mkResponse 200 "ok"
      (Some (PDict [("user_info",
                     PDict [("spend", PInt (Z.of_nat (count_completions t)))])]))).

(** A stand-in for [str], exact on [None], [bool], [int] and [str]. *)
Definition str_scalar (v : pyval) : string :=
  match v with
  | PNone => "None"
  | PBool true => "True"
  | PBool false => "False"
  | PInt z => str_int z
  | PStr s => s
  | PList _ => "[...]"
  | PDict _ => "{...}"
  end.

(** A server that creates users as the stand-in does and answers every
    lookup with a given status and parsed body. *)
Definition lookup_session (code : Z) (body : option pyval) : ClientSession :=
  mkSession (fun t rq =>
    match rq_method rq with
    | POST => mkResponse 200 "created" (Some (PDict [("key", issued_key t)]))
    | GET => mkResponse code "lookup" body
    end).

(** The traces of the budget scenario on the stand-in: they start with the
    creation of the user, answered with the key [sk-user-0], and hold [k]
    sleeps. *)
Definition created_then_slept (k : nat) (t : trace) : Prop :=
  (exists rest,
     t = Http (new_user_request (PStr (krrish "1.5")) (PInt 10) (PStr "5s"))
              (mkResponse 200 "created" (Some (PDict [("key", PStr "sk-user-0")])))
         :: rest)
  /\ count_slept t = k.

(** The coroutine [m] adds at most [n] exchanges to any trace, whatever
    its outcome, and removes none. *)
Definition makes_at_most {A} (n : nat) (m : M A) : Prop :=
  forall t, exists xs,
    exchanges (snd (m t)) = (exchanges t ++ xs)%list
    /\ (List.length xs <= n)%nat.

(** ** Evaluation on small inputs *)

Example str_int_599 : str_int 599 = "599".
Proof. reflexivity. Qed.

Example str_int_0 : str_int 0 = "0".
Proof. reflexivity. Qed.

Example str_int_neg : str_int (-7) = "-7".
Proof. reflexivity. Qed.

Example py_eqb_dict_order :
  py_eqb (PDict [("a", PInt 1); ("b", PBool true)])
         (PDict [("b", PInt 1); ("a", PBool true)]) = true.
Proof. reflexivity. Qed.

Example classify_404 :
  ai_dynamic_error_handling 404 "gone" [] =
  (Returns (PDict [("status_code", PInt 404);
                   ("error_message",
                    PStr "Not Found: The requested resource could not be found.")]),
   [Logged ERROR ("Error occurred: Not Found: The requested resource could not be found."
                    ++ nl ++ "Response: gone")]).
Proof. reflexivity. Qed.

Example stub_test_user_info_passes :
  fst (test_user_info (stub_session (mkStub 200 200 403 None)) "1.5" []) = Returns tt.
Proof. vm_compute. reflexivity. Qed.

Example stub_test_user_info_404 :
  fst (test_user_info (stub_session (mkStub 200 200 404 None)) "1.5" [])
  = Raises AssertionError.
Proof. vm_compute. reflexivity. Qed.

Example stub_test_user_info_200 :
  fst (test_user_info (stub_session (mkStub 200 200 200 None)) "1.5" [])
  = Raises AssertionError.
Proof. vm_compute. reflexivity. Qed.

Example stub_budget_reset_passes :
  fst (test_users_budgets_reset (stub_session (mkStub 200 200 403 (Some 2%nat))) "1.5" 5 [])
  = Returns tt.
Proof. vm_compute. reflexivity. Qed.

Example stub_budget_reset_stuck :
  fst (test_users_budgets_reset (stub_session (mkStub 200 200 403 None)) "1.5" 50 [])
  = Running.
Proof. vm_compute. reflexivity. Qed.

Example user_new_all_denied :
  let run := test_user_new (answering (mkResponse 500 "boom" None))
                           [0; 1; 2; 3; 4; 5; 6; 7; 8; 9]%nat [] in
  fst run = Raises (Exception "Request 1 did not return a 200 status code: 500")
  /\ List.length (exchanges (snd run)) = 10%nat
  /\ List.length (snd run) = 30%nat.
Proof. vm_compute. repeat split. Qed.

Example user_new_nothing_arrived :
  test_user_new (stub_session (mkStub 200 200 403 None)) [] [] = (Running, []).
Proof. reflexivity. Qed.

Example stub_user_new :
  fst (test_user_new (stub_session (mkStub 200 200 403 None))
         [9; 8; 7; 6; 5; 4; 3; 2; 1; 0]%nat []) = Returns tt.
Proof. vm_compute. reflexivity. Qed.

(** ** The logger *)

Lemma written_app (t u : trace) : written (t ++ u)%list = (written t ++ written u)%list.
Proof. unfold written. apply flat_map_app. Qed.

Lemma ai_log_info (message : string) (t : trace) :
  ai_log message "info" t = (Returns tt, (t ++ [Logged INFO message])%list).
Proof. reflexivity. Qed.

Lemma ai_log_error (message : string) (t : trace) :
  ai_log message "error" t = (Returns tt, (t ++ [Logged ERROR message])%list).
Proof. reflexivity. Qed.

Lemma ai_log_debug (message : string) (t : trace) :
  ai_log message "debug" t = (Returns tt, (t ++ [Logged DEBUG message])%list).
Proof. reflexivity. Qed.

Lemma ai_log_fallback (message level : string) (t : trace) :
  level <> "info" -> level <> "error" -> level <> "debug" ->
  ai_log message level t =
  (Returns tt,
   (t ++ [Logged WARNING
            ("Unknown log level: " ++ level ++ ". Message: " ++ message)])%list).
Proof.
  intros Hi He Hd. unfold ai_log.
  destruct (String.eqb_spec level "info") as [E|_]; [contradiction|].
  destruct (String.eqb_spec level "error") as [E|_]; [contradiction|].
  destruct (String.eqb_spec level "debug") as [E|_]; [contradiction|].
  reflexivity.
Qed.

Lemma ai_log_returns (message level : string) (t : trace) :
  exists lvl msg,
    ai_log message level t = (Returns tt, (t ++ [Logged lvl msg])%list).
Proof.
  unfold ai_log, emit.
  destruct (level =? "info")%string; [do 2 eexists; reflexivity|].
  destruct (level =? "error")%string; [do 2 eexists; reflexivity|].
  destruct (level =? "debug")%string; do 2 eexists; reflexivity.
Qed.

(** C3, as the code has it.  The levels the logger knows are [info],
    [error] and [debug]: for these it hands the message unchanged to the
    logging call of that level.  Every other level, [warning] included,
    goes to [logging.warning] with the note
    [Unknown log level: <level>. Message: <message>].  In all cases the
    call returns [None] after exactly one logging call and raises nothing.
    Under the [INFO] threshold of line 13 the [debug] record does not reach
    the output. *)
Theorem ai_log_dispatch (message level : string) (t : trace) :
  (level = "info" ->
   ai_log message level t = (Returns tt, (t ++ [Logged INFO message])%list)) /\
  (level = "error" ->
   ai_log message level t = (Returns tt, (t ++ [Logged ERROR message])%list)) /\
  (level = "debug" ->
   ai_log message level t = (Returns tt, (t ++ [Logged DEBUG message])%list)
   /\ written (snd (ai_log message level t)) = written t) /\
  (level <> "info" -> level <> "error" -> level <> "debug" ->
   ai_log message level t =
   (Returns tt,
    (t ++ [Logged WARNING
             ("Unknown log level: " ++ level ++ ". Message: " ++ message)])%list)) /\
  (exists lvl msg,
     ai_log message level t = (Returns tt, (t ++ [Logged lvl msg])%list)).
Proof.
  repeat split.
  - intros ->. apply ai_log_info.
  - intros ->. apply ai_log_error.
  - subst level. apply ai_log_debug.
  - subst level. rewrite ai_log_debug. simpl snd.
    rewrite written_app. simpl. apply app_nil_r.
  - apply ai_log_fallback.
  - apply ai_log_returns.
Qed.

Lemma ai_log_dispatch_witness :
  ai_log "m" "verbose" [] =
  (Returns tt, [Logged WARNING "Unknown log level: verbose. Message: m"])
  /\ written (snd (ai_log "m" "debug" [Logged INFO "a"])) = [(INFO, "a")].
Proof.
  split.
  - apply (proj1 (proj2 (proj2 (proj2 (ai_log_dispatch "m" "verbose" []))))).
    + discriminate.
    + discriminate.
    + discriminate.
  - apply (proj2 (proj1 (proj2 (proj2
             (ai_log_dispatch "m" "debug" [Logged INFO "a"]))) eq_refl)).
Defined.

(** C3 as stated fails at the level [warning]: the message is not written
    as it is, the logger takes [warning] for an unknown level and writes
    the note. *)
Lemma ai_log_warning_is_unknown :
  ai_log "m" "warning" [] =
  (Returns tt, [Logged WARNING "Unknown log level: warning. Message: m"])
  /\ ai_log "m" "warning" [] <> (Returns tt, [Logged WARNING "m"]).
Proof.
  split.
  - reflexivity.
  - vm_compute. intro H. discriminate H.
Qed.

(** ** The classifier *)

Lemma ai_dynamic_error_handling_run (status_code : Z) (response_text : string)
    (t : trace) :
  ai_dynamic_error_handling status_code response_text t =
  (Returns (PDict [("status_code", PInt status_code);
                   ("error_message", PStr (error_message_for status_code))]),
   (t ++ [Logged ERROR ("Error occurred: " ++ error_message_for status_code
                          ++ nl ++ "Response: " ++ response_text)])%list).
Proof. reflexivity. Qed.

Lemma error_message_for_other (status_code : Z) :
  status_code <> 400 -> status_code <> 401 -> status_code <> 403 ->
  status_code <> 404 -> status_code <> 500 ->
  error_message_for status_code = "Unexpected error: " ++ str_int status_code.
Proof.
  intros H0 H1 H3 H4 H5. unfold error_message_for, error_messages, dict_get.
  repeat match goal with
         | |- context [Z.eqb ?a ?b] =>
             destruct (Z.eqb_spec a b) as [E|_]; [contradiction|]
         end.
  reflexivity.
Qed.

(** C2, as the code has it.  For every status code and body the
    classifier returns the report pairing the input code with its message
    and, before returning, logs the message and the body at error level (a
    record that reaches the output).  The message is the canned sentence of
    400, 401, 403, 404 and 500, and for any other code the text
    [Unexpected error: <code>], with a capital U. *)
Theorem classifier_report (status_code : Z) (response_text : string) (t : trace) :
  ai_dynamic_error_handling status_code response_text t =
  (Returns (PDict [("status_code", PInt status_code);
                   ("error_message", PStr (error_message_for status_code))]),
   (t ++ [Logged ERROR ("Error occurred: " ++ error_message_for status_code
                          ++ nl ++ "Response: " ++ response_text)])%list)
  /\ written (snd (ai_dynamic_error_handling status_code response_text t)) =
     (written t ++ [(ERROR, ("Error occurred: " ++ error_message_for status_code
                               ++ nl ++ "Response: " ++ response_text)%string)])%list
  /\ error_message_for 400 =
     "Bad Request: The server could not understand the request."
  /\ error_message_for 401 =
     "Unauthorized: Access is denied due to invalid credentials."
  /\ error_message_for 403 =
     "Forbidden: You don't have permission to access this resource."
  /\ error_message_for 404 =
     "Not Found: The requested resource could not be found."
  /\ error_message_for 500 =
     "Internal Server Error: The server encountered an error."
  /\ (status_code <> 400 -> status_code <> 401 -> status_code <> 403 ->
      status_code <> 404 -> status_code <> 500 ->
      error_message_for status_code = "Unexpected error: " ++ str_int status_code).
Proof.
  split; [apply ai_dynamic_error_handling_run|].
  split.
  { rewrite ai_dynamic_error_handling_run. simpl snd.
    rewrite written_app. reflexivity. }
  repeat split; try reflexivity.
  apply error_message_for_other.
Qed.

Lemma classifier_report_witness :
  error_message_for 599 = "Unexpected error: 599".
Proof.
  apply (proj2 (proj2 (proj2 (proj2 (proj2 (proj2 (proj2
           (classifier_report 599 "" []))))))));
    discriminate.
Defined.

(** C2 as stated fails on the letter case of the generic message: for 599
    the report carries [Unexpected error: 599], not [unexpected error: 599]. *)
Lemma classifier_599_capital :
  fst (ai_dynamic_error_handling 599 "teapot" []) =
  Returns (PDict [("status_code", PInt 599);
                  ("error_message", PStr "Unexpected error: 599")])
  /\ fst (ai_dynamic_error_handling 599 "teapot" []) <>
     Returns (PDict [("status_code", PInt 599);
                     ("error_message", PStr "unexpected error: 599")]).
Proof.
  split.
  - reflexivity.
  - vm_compute. intro H. discriminate H.
Qed.

(** ** The coroutine monad *)

Lemma bind_returns {A B} (m : M A) (k : A -> M B) (t t' : trace) (b : B) :
  bind m k t = (Returns b, t') ->
  exists a t1, m t = (Returns a, t1) /\ k a t1 = (Returns b, t').
Proof.
  unfold bind. destruct (m t) as [[a|e|] t1]; intro H;
    [exists a, t1; split; [reflexivity|exact H] | discriminate H | discriminate H].
Qed.

Lemma bind_step {A B} (m : M A) (k : A -> M B) (t t1 : trace) (a : A) :
  m t = (Returns a, t1) -> bind m k t = k a t1.
Proof. unfold bind. intros ->. reflexivity. Qed.

Lemma bind_raises {A B} (m : M A) (k : A -> M B) (t t1 : trace) (e : exn) :
  m t = (Raises e, t1) -> bind m k t = (Raises e, t1).
Proof. unfold bind. intros ->. reflexivity. Qed.

(** Splits a bind that returned into its first step and its continuation. *)
Tactic Notation "bind_inv" hyp(H) ident(a) ident(t1) ident(H1) :=
  apply bind_returns in H; destruct H as (a & t1 & H1 & H).

Lemma subscript_returns (v : pyval) (key : string) (t t' : trace) (x : pyval) :
  subscript v key t = (Returns x, t') ->
  t' = t /\ exists kvs, v = PDict kvs /\ dict_lookup key kvs = Some x.
Proof.
  unfold subscript. destruct v; try discriminate.
  destruct (dict_lookup key kvs) as [y|] eqn:E; [|discriminate].
  unfold ret. intro H. injection H as <- <-. split; [reflexivity|eauto].
Qed.

Lemma exchanges_app (t u : trace) :
  exchanges (t ++ u)%list = (exchanges t ++ exchanges u)%list.
Proof. unfold exchanges. apply flat_map_app. Qed.

Lemma requests_exchanges (t : trace) : requests t = map fst (exchanges t).
Proof.
  induction t as [|e t IH]; [reflexivity|].
  destruct e; simpl; try exact IH. f_equal. exact IH.
Qed.

(** ** Creating a user *)

(** What one run of [new_user] does, in one equation. *)
Lemma new_user_run (s : ClientSession) (i : Z) (user_id budget budget_duration : pyval)
    (t : trace) :
  new_user s i user_id budget budget_duration t =
  let rq := new_user_request user_id budget budget_duration in
  let rs := serve s t rq in
  let t1 := (t ++ [Http rq rs;
                   Logged INFO ("Response " ++ str_int i ++ " (Status code: "
                                  ++ str_int (status rs) ++ "): " ++ text rs)])%list in
  if status rs =? 200 then
    (match json rs with
     | Some body => Returns body
     | None => Raises JSONDecodeError
     end, t1)
  else
    (Raises (Exception ("Request " ++ str_int i
                          ++ " did not return a 200 status code: "
                          ++ str_int (status rs))),
     snd (ai_dynamic_error_handling (status rs) (text rs) t1)).
Proof.
  unfold new_user, new_user_request, bind, session_post. cbv zeta.
  rewrite ai_log_info.
  destruct (status _ =? 200); cbn [negb].
  - unfold response_json. rewrite <- app_assoc. cbn [app].
    destruct (json _); reflexivity.
  - rewrite !ai_dynamic_error_handling_run. cbn [snd]. unfold raise.
    rewrite <- !app_assoc. reflexivity.
Qed.



(** C8.  Every run of [new_user] sends exactly one request: a [POST] to
    [/user/new] with the admin bearer token, whose body holds the fixed
    model list, the fixed alias map, a null [duration], the given
    [max_budget] and [budget_duration], and a [user_id] entry exactly when
    an identifier was supplied. *)
Theorem new_user_post_body (s : ClientSession) (i : Z)
    (user_id budget budget_duration : pyval) (t : trace) :
  let rq := new_user_request user_id budget budget_duration in
  (exists rs logs,
     snd (new_user s i user_id budget budget_duration t) =
     (t ++ Http rq rs :: logs)%list /\ requests logs = [])
  /\ rq_method rq = POST
  /\ rq_url rq = "http://0.0.0.0:4000/user/new"
  /\ Authorization (rq_headers rq) = Bearer (PStr "sk-1234")
  /\ exists data,
       rq_json rq = Some data
       /\ dict_lookup "models" data = Some (PList [PStr "azure-models"])
       /\ dict_lookup "aliases" data =
          Some (PDict [("mistral-7b", PStr "gpt-3.5-turbo")])
       /\ dict_lookup "duration" data = Some PNone
       /\ dict_lookup "max_budget" data = Some budget
       /\ dict_lookup "budget_duration" data = Some budget_duration
       /\ (user_id = PNone ->
           dict_lookup "user_id" data = None
           /\ map fst data =
              ["models"; "aliases"; "duration"; "max_budget"; "budget_duration"])
       /\ (user_id <> PNone ->
           dict_lookup "user_id" data = Some user_id
           /\ map fst data =
              ["models"; "aliases"; "duration"; "max_budget"; "budget_duration";
               "user_id"]).
Proof.
  cbv zeta. split.
  { rewrite new_user_run. cbv zeta.
    destruct (status _ =? 200).
    - eexists. eexists. split; [reflexivity|reflexivity].
    - rewrite ai_dynamic_error_handling_run. cbn [snd].
      eexists. eexists. split.
      + rewrite <- app_assoc. reflexivity.
      + reflexivity. }
  split; [reflexivity|]. split; [reflexivity|]. split; [reflexivity|].
  exists (new_user_data user_id budget budget_duration).
  split; [reflexivity|].
  destruct user_id; cbn; repeat split; intros; try reflexivity; congruence.
Qed.

Lemma new_user_post_body_witness :
  dict_lookup "user_id" (new_user_data PNone (PInt 10) (PStr "5s")) = None
  /\ dict_lookup "user_id" (new_user_data (PStr "u1") (PInt 10) (PStr "5s"))
     = Some (PStr "u1").
Proof.
  split.
  - destruct (proj2 (proj2 (proj2 (proj2
      (new_user_post_body (answering (mkResponse 200 "" None)) 1
                          PNone (PInt 10) (PStr "5s") [])))))
      as [data [Hd [_ [_ [_ [_ [_ [Hnone _]]]]]]]].
    injection Hd as <-. exact (proj1 (Hnone eq_refl)).
  - destruct (proj2 (proj2 (proj2 (proj2
      (new_user_post_body (answering (mkResponse 200 "" None)) 1
                          (PStr "u1") (PInt 10) (PStr "5s") [])))))
      as [data [Hd [_ [_ [_ [_ [_ [_ Hsome]]]]]]]].
    injection Hd as <-. apply Hsome. discriminate.
Defined.

(** ** Looking a user up *)

(** What one run of [get_user_info] does, in one equation; the test of
    line 99 is Python's [call_user != get_user]. *)
Lemma get_user_info_run (s : ClientSession) (get_user : string) (call_user : pyval)
    (view_all : option bool) (t : trace) :
  get_user_info s get_user call_user view_all t =
  let rq := user_info_request get_user call_user view_all in
  let rs := serve s t rq in
  let t1 := (t ++ [Http rq rs;
                   Logged INFO ("User info response for " ++ get_user ++ ": "
                                  ++ text rs)])%list in
  if status rs =? 200 then
    (match json rs with
     | Some body => Returns body
     | None => Raises JSONDecodeError
     end, t1)
  else
    let t2 := (t1 ++ [Logged ERROR ("Error occurred: "
                                      ++ error_message_for (status rs)
                                      ++ nl ++ "Response: " ++ text rs)])%list in
    if py_ne call_user (PStr get_user) then (Returns (PInt (status rs)), t2)
    else
      (Raises (Exception ("Request did not return a 200 status code: "
                            ++ str_int (status rs))),
       (t2 ++ [Logged ERROR ("call_user: " ++ get_user ++ "; get_user: "
                               ++ get_user)])%list).
Proof.
  unfold get_user_info, user_info_request, bind, session_get. cbv zeta.
  rewrite ai_log_info.
  destruct (status _ =? 200); cbn [negb].
  - unfold response_json. rewrite <- app_assoc. cbn [app].
    destruct (json _); reflexivity.
  - rewrite ai_dynamic_error_handling_run.
    rewrite <- !app_assoc. cbn [app].
    destruct call_user; try reflexivity.
    unfold py_ne. cbn [py_eqb].
    destruct (String.eqb_spec s0 get_user) as [->|_]; cbn [negb].
    + rewrite ai_log_error. unfold raise.
      rewrite <- !app_assoc. reflexivity.
    + reflexivity.
Qed.

(** The three cases of the helper, by the test the code makes: the
    comparison of the bearer value with the identifier. *)
Lemma get_user_info_policy (s : ClientSession) (get_user : string)
    (call_user : pyval) (view_all : option bool) (t : trace) :
  let rs := serve s t (user_info_request get_user call_user view_all) in
  (status rs = 200 -> forall body, json rs = Some body ->
   fst (get_user_info s get_user call_user view_all t) = Returns body)
  /\ (status rs <> 200 -> py_ne call_user (PStr get_user) = true ->
      fst (get_user_info s get_user call_user view_all t) = Returns (PInt (status rs)))
  /\ (status rs <> 200 -> call_user = PStr get_user ->
      fst (get_user_info s get_user call_user view_all t) =
      Raises (Exception ("Request did not return a 200 status code: "
                           ++ str_int (status rs)))).
Proof.
  cbv zeta. repeat split.
  - intros H200 body Hbody. rewrite get_user_info_run. cbv zeta.
    rewrite H200, Hbody. reflexivity.
  - intros Hne Hstranger. rewrite get_user_info_run. cbv zeta.
    destruct (Z.eqb_spec (status (serve s t
                (user_info_request get_user call_user view_all))) 200) as [E|_];
      [contradiction|].
    rewrite Hstranger. reflexivity.
  - intros Hne ->. rewrite get_user_info_run. cbv zeta.
    destruct (Z.eqb_spec (status (serve s t
                (user_info_request get_user (PStr get_user) view_all))) 200) as [E|_];
      [contradiction|].
    unfold py_ne. cbn [py_eqb]. rewrite String.eqb_refl. reflexivity.
Qed.

(** C1 at the input of the self lookup of [test_user_info]: the user is
    created, the lookup is made with the key the creation returned, and the
    server answers 500.  The key is not the identifier, so the test of
    line 99 takes the caller for a stranger: the helper returns 500 as data
    and raises nothing. *)
Theorem get_user_info_own_key_500 :
  let s := stub_session (mkStub 200 500 403 None) in
  let get_user := krrish "1.5" in
  fst ((key_gen <- new_user s 0 (PStr get_user) PNone PNone ;;
        key <- subscript key_gen "key" ;;
        get_user_info s get_user key None) [])
  = Returns (PInt 500)
  /\ fst (test_user_info s "1.5" []) = Returns tt.
Proof. vm_compute. split; reflexivity. Qed.

(** ** The visibility scenario *)

Lemma new_user_returns (s : ClientSession) (i : Z)
    (user_id budget budget_duration : pyval) (t t' : trace) (v : pyval) :
  new_user s i user_id budget budget_duration t = (Returns v, t') ->
  let rq := new_user_request user_id budget budget_duration in
  let rs := serve s t rq in
  status rs = 200 /\ json rs = Some v
  /\ exchanges t' = (exchanges t ++ [(rq, rs)])%list.
Proof.
  rewrite new_user_run. cbv zeta.
  destruct (Z.eqb_spec (status (serve s t
              (new_user_request user_id budget budget_duration))) 200) as [E|_];
    [|discriminate].
  destruct (json _) as [body|]; [|discriminate].
  intro H. injection H as <- <-.
  split; [exact E|]. split; [reflexivity|].
  rewrite exchanges_app. reflexivity.
Qed.

Lemma get_user_info_returns (s : ClientSession) (get_user : string)
    (call_user : pyval) (view_all : option bool) (t t' : trace) (v : pyval) :
  get_user_info s get_user call_user view_all t = (Returns v, t') ->
  let rq := user_info_request get_user call_user view_all in
  let rs := serve s t rq in
  exchanges t' = (exchanges t ++ [(rq, rs)])%list
  /\ ((status rs = 200 /\ json rs = Some v)
      \/ (status rs <> 200 /\ v = PInt (status rs)
          /\ py_ne call_user (PStr get_user) = true)).
Proof.
  rewrite get_user_info_run. cbv zeta.
  destruct (Z.eqb_spec (status (serve s t
              (user_info_request get_user call_user view_all))) 200) as [E|E].
  - destruct (json _) as [body|]; [|discriminate].
    intro H. injection H as <- <-.
    split; [rewrite exchanges_app; reflexivity|].
    left. split; [exact E|reflexivity].
  - destruct (py_ne call_user (PStr get_user)) eqn:Hne; [|discriminate].
    intro H. injection H as <- <-.
    split; [rewrite !exchanges_app; cbn; rewrite app_nil_r; reflexivity|].
    right. repeat split; [exact E].
Qed.

Lemma test_user_info_split (s : ClientSession) (now : string) (t : trace) :
  test_user_info s now t =
  (random_key <- test_user_info_setup s now ;;
   status <- get_user_info s (krrish now) random_key None ;;
   py_assert (py_eqb status (PInt 403))) t.
Proof.
  unfold test_user_info, test_user_info_setup. cbv zeta. unfold bind.
  repeat match goal with
         | |- context [match ?m ?x with (o, t') => _ end] =>
             destruct (m x) as [[?|?|] ?]; try reflexivity
         end.
Qed.

Lemma test_user_info_setup_returns (s : ClientSession) (now : string)
    (t t4 : trace) (random_key : pyval) :
  test_user_info_setup s now t = (Returns random_key, t4) ->
  exists rs1 rs2 rs3 rs4 kvs1 kvs4 key,
    exchanges t4 =
    (exchanges t ++
       [(new_user_request (PStr (krrish now)) PNone PNone, rs1);
        (user_info_request (krrish now) (PStr "sk-1234") None, rs2);
        (user_info_request (krrish now) key None, rs3);
        (new_user_request PNone PNone PNone, rs4)])%list
    /\ status rs1 = 200 /\ json rs1 = Some (PDict kvs1)
    /\ dict_lookup "key" kvs1 = Some key
    /\ status rs4 = 200 /\ json rs4 = Some (PDict kvs4)
    /\ dict_lookup "key" kvs4 = Some random_key.
Proof.
  unfold test_user_info_setup. cbv zeta. intro H.
  bind_inv H key_gen t1 H1. bind_inv H key t1' Hk.
  bind_inv H r2 t2 H2. bind_inv H r3 t3 H3.
  bind_inv H key_gen' t5 H4. rename H into Hk'.
  apply new_user_returns in H1. cbv zeta in H1. destruct H1 as (S1 & J1 & X1).
  apply subscript_returns in Hk. destruct Hk as (-> & kvs1 & -> & L1).
  apply get_user_info_returns in H2. cbv zeta in H2. destruct H2 as (X2 & _).
  apply get_user_info_returns in H3. cbv zeta in H3. destruct H3 as (X3 & _).
  apply new_user_returns in H4. cbv zeta in H4. destruct H4 as (S4 & J4 & X4).
  apply subscript_returns in Hk'. destruct Hk' as (-> & kvs4 & -> & L4).
  do 4 eexists. exists kvs1, kvs4, key.
  split.
  - rewrite X4, X3, X2, X1. rewrite <- !app_assoc. reflexivity.
  - repeat split; eassumption.
Qed.

Lemma py_eqb_403 (v : pyval) : py_eqb v (PInt 403) = true <-> v = PInt 403.
Proof.
  destruct v as [|[|]|z| | |]; cbn; split; try discriminate; try congruence.
  - intro H. apply Z.eqb_eq in H. subst z. reflexivity.
  - intro H. injection H as ->. reflexivity.
Qed.

Lemma py_ne_str (v : pyval) (g : string) :
  py_ne v (PStr g) = true <-> v <> PStr g.
Proof.
  unfold py_ne. destruct v; cbn; split; try discriminate; try reflexivity;
    try (intros _; discriminate).
  - intros H E. injection E as ->. rewrite String.eqb_refl in H. discriminate H.
  - intro H. destruct (String.eqb_spec s g) as [->|_]; [contradiction H|]; reflexivity.
Qed.

(** The outcome of the scenario once the steps before the last lookup have
    gone through, by the answer to that lookup. *)
Lemma test_user_info_last (s : ClientSession) (now : string) (t t4 : trace)
    (random_key : pyval) :
  test_user_info_setup s now t = (Returns random_key, t4) ->
  let rs5 := serve s t4 (user_info_request (krrish now) random_key None) in
  fst (test_user_info s now t) =
  if status rs5 =? 200 then
    match json rs5 with
    | Some body => if py_eqb body (PInt 403) then Returns tt
                   else Raises AssertionError
    | None => Raises JSONDecodeError
    end
  else if py_ne random_key (PStr (krrish now)) then
    if status rs5 =? 403 then Returns tt else Raises AssertionError
  else Raises (Exception ("Request did not return a 200 status code: "
                            ++ str_int (status rs5))).
Proof.
  intro Hsetup. cbv zeta. rewrite test_user_info_split.
  rewrite (bind_step _ _ _ _ _ Hsetup).
  unfold bind. rewrite get_user_info_run. cbv zeta.
  destruct (status _ =? 200).
  - destruct (json _) as [body|]; [|reflexivity].
    unfold py_assert. destruct (py_eqb body (PInt 403)); reflexivity.
  - destruct (py_ne random_key (PStr (krrish now))); [|reflexivity].
    unfold py_assert. cbn [py_eqb]. destruct (status _ =? 403); reflexivity.
Qed.

(** C6, as the code has it.  [test_user_info] names its user
    [krrish_<now>@berri.ai].  Its assertion is on the value the last lookup
    returns.  Once the steps before that lookup have gone through, the
    scenario succeeds exactly when the lookup is answered with status 403
    (the key of the second user not being the identifier itself), or with
    status 200 and the number 403 as its body; for every other answer it
    fails: with [AssertionError] for another status or another body, with
    the error of the body that does not parse, or with the helper's
    exception when the key is the identifier.  A run that succeeds has
    made, in this order: the creation of that user, its lookup with the
    admin token, its lookup with the key the creation returned, the
    creation of a user with no identifier, and the lookup of the first
    user with the key of the second. *)
Theorem test_user_info_acceptance (s : ClientSession) (now : string) (t : trace) :
  let get_user := krrish now in
  get_user = "krrish_" ++ now ++ "@berri.ai"
  /\
  (forall random_key t4,
     test_user_info_setup s now t = (Returns random_key, t4) ->
     let rs5 := serve s t4 (user_info_request get_user random_key None) in
     (fst (test_user_info s now t) = Returns tt
      <-> (status rs5 = 403 /\ random_key <> PStr get_user)
          \/ (status rs5 = 200 /\ json rs5 = Some (PInt 403)))
     /\ (status rs5 <> 200 -> status rs5 <> 403 -> random_key <> PStr get_user ->
         fst (test_user_info s now t) = Raises AssertionError)
     /\ (status rs5 = 200 -> forall body, json rs5 = Some body ->
         body <> PInt 403 ->
         fst (test_user_info s now t) = Raises AssertionError)
     /\ (status rs5 = 200 -> json rs5 = None ->
         fst (test_user_info s now t) = Raises JSONDecodeError)
     /\ (status rs5 <> 200 -> random_key = PStr get_user ->
         fst (test_user_info s now t)
         = Raises (Exception ("Request did not return a 200 status code: "
                                ++ str_int (status rs5)))))
  /\
  (forall t',
     test_user_info s now t = (Returns tt, t') ->
     exists rs1 rs2 rs3 rs4 rs5 kvs1 kvs4 key random_key,
       exchanges t' =
       (exchanges t ++
          [(new_user_request (PStr get_user) PNone PNone, rs1);
           (user_info_request get_user (PStr "sk-1234") None, rs2);
           (user_info_request get_user key None, rs3);
           (new_user_request PNone PNone PNone, rs4);
           (user_info_request get_user random_key None, rs5)])%list
       /\ json rs1 = Some (PDict kvs1) /\ dict_lookup "key" kvs1 = Some key
       /\ json rs4 = Some (PDict kvs4) /\ dict_lookup "key" kvs4 = Some random_key
       /\ dict_lookup "user_id" (new_user_data PNone PNone PNone) = None
       /\ ((status rs5 = 403 /\ random_key <> PStr get_user)
           \/ (status rs5 = 200 /\ json rs5 = Some (PInt 403)))).
Proof.
  cbv zeta. split; [reflexivity|].
  assert (Hiff : forall random_key t4,
    test_user_info_setup s now t = (Returns random_key, t4) ->
    (fst (test_user_info s now t) = Returns tt
     <-> (status (serve s t4 (user_info_request (krrish now) random_key None)) = 403
          /\ random_key <> PStr (krrish now))
         \/ (status (serve s t4 (user_info_request (krrish now) random_key None)) = 200
             /\ json (serve s t4 (user_info_request (krrish now) random_key None))
                = Some (PInt 403)))).
  { intros random_key t4 Hsetup.
    rewrite (test_user_info_last s now t t4 random_key Hsetup). cbv zeta.
    destruct (Z.eqb_spec (status (serve s t4
                (user_info_request (krrish now) random_key None))) 200) as [E|E].
    - destruct (json _) as [body|].
      + destruct (py_eqb body (PInt 403)) eqn:Hb.
        * apply py_eqb_403 in Hb. subst body. split; [|reflexivity].
          intros _. right. split; [exact E|reflexivity].
        * split; [discriminate|].
          intros [[E' _]|[_ Hj]]; [rewrite E in E'; discriminate E'|].
          injection Hj as ->. rewrite (proj2 (py_eqb_403 (PInt 403)) eq_refl) in Hb.
          discriminate Hb.
      + split; [discriminate|].
        intros [[E' _]|[_ Hj]]; [rewrite E in E'|]; discriminate.
    - destruct (py_ne random_key (PStr (krrish now))) eqn:Hne.
      + apply py_ne_str in Hne.
        destruct (Z.eqb_spec (status (serve s t4
                    (user_info_request (krrish now) random_key None))) 403) as [E3|E3].
        * split; [|reflexivity]. intros _. left. split; assumption.
        * split; [discriminate|].
          intros [[E' _]|[E' _]]; contradiction.
      + split; [discriminate|].
        intros [[_ Hk]|[E' _]]; [|contradiction].
        apply py_ne_str in Hk. rewrite Hk in Hne. discriminate Hne. }
  split.
  - intros random_key t4 Hsetup. split; [exact (Hiff random_key t4 Hsetup)|].
    rewrite (test_user_info_last s now t t4 random_key Hsetup). cbv zeta.
    split; [|split; [|split]].
    + intros H2 H3 Hk.
      destruct (Z.eqb_spec (status (serve s t4
                  (user_info_request (krrish now) random_key None))) 200) as [E|_];
        [contradiction|].
      rewrite (proj2 (py_ne_str random_key (krrish now)) Hk).
      destruct (Z.eqb_spec (status (serve s t4
                  (user_info_request (krrish now) random_key None))) 403) as [E|_];
        [contradiction|reflexivity].
    + intros H2 body Hj Hb. rewrite H2, Hj. cbn [Z.eqb Pos.eqb].
      destruct (py_eqb body (PInt 403)) eqn:H403; [|reflexivity].
      apply py_eqb_403 in H403. contradiction.
    + intros H2 Hj. rewrite H2, Hj. reflexivity.
    + intros H2 ->.
      destruct (Z.eqb_spec (status (serve s t4
                  (user_info_request (krrish now) (PStr (krrish now)) None))) 200)
        as [E|_]; [contradiction|].
      unfold py_ne. cbn [py_eqb]. rewrite String.eqb_refl. reflexivity.
  - intros t' H.
    assert (Hfst : fst (test_user_info s now t) = Returns tt) by (rewrite H; reflexivity).
    rewrite test_user_info_split in H.
    bind_inv H random_key t4 Hsetup. bind_inv H status t5 Hget.
    rename H into Hassert.
    unfold py_assert in Hassert.
    destruct (py_eqb status (PInt 403)) eqn:H403; [|discriminate].
    unfold ret in Hassert. injection Hassert as <-.
    destruct (test_user_info_setup_returns _ _ _ _ _ Hsetup)
      as (rs1 & rs2 & rs3 & rs4 & kvs1 & kvs4 & key & X & _ & J1 & L1 & _ & J4 & L4).
    pose proof (get_user_info_returns _ _ _ _ _ _ _ Hget) as Hx.
    cbv zeta in Hx. destruct Hx as (X5 & _).
    exists rs1, rs2, rs3, rs4. eexists. exists kvs1, kvs4, key, random_key.
    split.
    { rewrite X5, X. rewrite <- app_assoc. reflexivity. }
    repeat split; try assumption.
    exact (proj1 (Hiff random_key t4 Hsetup) Hfst).
Qed.

Lemma test_user_info_acceptance_witness :
  let s := stub_session (mkStub 200 200 404 None) in
  let s' := stub_session (mkStub 200 200 403 None) in
  (exists random_key t4,
     test_user_info_setup s "1.5" [] = (Returns random_key, t4)
     /\ status (serve s t4 (user_info_request (krrish "1.5") random_key None)) = 404
     /\ fst (test_user_info s "1.5" []) = Raises AssertionError)
  /\ fst (test_user_info s' "1.5" []) = Returns tt.
Proof.
  cbv zeta. split.
  - eexists. eexists. split; [vm_compute; reflexivity|].
    split; [vm_compute; reflexivity|].
    apply (proj1 (proj2 (proj1 (proj2 (test_user_info_acceptance
                           (stub_session (mkStub 200 200 404 None)) "1.5" []))
             _ _ ltac:(vm_compute; reflexivity)))).
    + vm_compute. discriminate.
    + vm_compute. discriminate.
    + vm_compute. discriminate.
  - apply (proj2 (proj1 (proj1 (proj2 (test_user_info_acceptance
                           (stub_session (mkStub 200 200 403 None)) "1.5" []))
             _ _ ltac:(vm_compute; reflexivity)))).
    left. split; [vm_compute; reflexivity|vm_compute; discriminate].
Defined.

(** C6 as stated fails when the last lookup is answered 200 with the number
    403 as its body: the lookup returns that body, the assertion holds
    and the scenario passes, although every status of the run is 200. *)
Lemma test_user_info_passes_without_status_403 :
  let run := test_user_info (lookup_session 200 (Some (PInt 403))) "1.5" [] in
  fst run = Returns tt
  /\ map (fun x : request * response => status (snd x)) (exchanges (snd run))
     = [200; 200; 200; 200; 200].
Proof. vm_compute. split; reflexivity. Qed.

(** ** The parallel creation scenario *)

Lemma user_new_tasks_nth (s : ClientSession) (k : nat) (task : M pyval) :
  nth_error (user_new_tasks s) k = Some task ->
  (k < 10)%nat /\ task = new_user s (Z.of_nat k + 1) PNone PNone PNone.
Proof.
  intro H.
  do 10 (destruct k as [|k];
         [injection H as <-; split; [lia|reflexivity]|]).
  destruct k; discriminate H.
Qed.

Lemma new_user_not_running (s : ClientSession) (i : Z)
    (user_id budget budget_duration : pyval) (t : trace) :
  fst (new_user s i user_id budget budget_duration t) <> Running.
Proof.
  rewrite new_user_run. cbv zeta.
  destruct (status _ =? 200); [destruct (json _)|]; discriminate.
Qed.

(** One run of [new_user] makes one exchange; it returns when the exchange
    is a creation that went through and raises otherwise. *)
Lemma new_user_exchange (s : ClientSession) (i : Z) (t : trace) :
  let rq := new_user_request PNone PNone PNone in
  let rs := serve s t rq in
  exchanges (snd (new_user s i PNone PNone PNone t))
  = (exchanges t ++ [(rq, rs)])%list
  /\ ((exists body, fst (new_user s i PNone PNone PNone t) = Returns body
                    /\ created_without_id (rq, rs))
      \/ (exists e, fst (new_user s i PNone PNone PNone t) = Raises e
                    /\ ~ created_without_id (rq, rs))).
Proof.
  cbv zeta. rewrite new_user_run. cbv zeta.
  destruct (Z.eqb_spec (status (serve s t (new_user_request PNone PNone PNone))) 200)
    as [E|E].
  - split; [cbn [snd]; rewrite exchanges_app; reflexivity|].
    destruct (json (serve s t (new_user_request PNone PNone PNone)))
      as [body|] eqn:J.
    + left. exists body. split; [reflexivity|].
      split; [reflexivity|]. split; [exact E|]. cbn [snd]. rewrite J. discriminate.
    + right. eexists. split; [reflexivity|].
      intros (_ & _ & Hj). apply Hj. exact J.
  - rewrite ai_dynamic_error_handling_run. cbn [fst snd]. split.
    + rewrite !exchanges_app. cbn. rewrite app_nil_r. reflexivity.
    + right. eexists. split; [reflexivity|].
      intros (_ & Hs & _). apply E. exact Hs.
Qed.

Lemma run_tasks_app {A} (tasks : list (M A)) (pre rest : list nat)
    (g : gathered A) (t : trace) :
  run_tasks tasks (pre ++ rest) g t =
  let (g1, t1) := run_tasks tasks pre g t in run_tasks tasks rest g1 t1.
Proof.
  revert g t. induction pre as [|k pre IH]; intros g t; [reflexivity|].
  cbn [app run_tasks].
  destruct (existsb (Nat.eqb k) (finished g)); [apply IH|].
  destruct (nth_error tasks k) as [task|]; [|apply IH].
  destruct (task t) as [[a|e|] t1]; apply IH.
Qed.

(** Once an exception is recorded it stays. *)
Lemma first_exception_stays {A} (tasks : list (M A)) (schedule : list nat)
    (g : gathered A) (t : trace) (e : exn) :
  first_exception g = Some e ->
  first_exception (fst (run_tasks tasks schedule g t)) = Some e.
Proof.
  revert g t. induction schedule as [|k rest IH]; intros g t He; [exact He|].
  cbn [run_tasks].
  destruct (existsb (Nat.eqb k) (finished g)); [apply IH; exact He|].
  destruct (nth_error tasks k) as [task|]; [|apply IH; exact He].
  destruct (task t) as [[a|e'|] t1]; apply IH; cbn; try exact He.
  rewrite He. reflexivity.
Qed.

Lemma not_finished (k : nat) (l : list nat) :
  existsb (Nat.eqb k) l = false -> ~ In k l.
Proof.
  intros H Hin.
  assert (Ht : existsb (Nat.eqb k) l = true).
  { apply existsb_exists. exists k. split; [exact Hin|apply Nat.eqb_refl]. }
  rewrite H in Ht. discriminate Ht.
Qed.

Lemma run_tasks_inv (s : ClientSession) (t0 : trace) (schedule : list nat) :
  forall g t,
    gather_inv t0 g t ->
    gather_inv t0 (fst (run_tasks (user_new_tasks s) schedule g t))
                  (snd (run_tasks (user_new_tasks s) schedule g t)).
Proof.
  induction schedule as [|k rest IH]; intros g t Hinv; [exact Hinv|].
  cbn [run_tasks].
  destruct (existsb (Nat.eqb k) (finished g)) eqn:Hmem; [apply IH; exact Hinv|].
  apply not_finished in Hmem.
  destruct (nth_error (user_new_tasks s) k) as [task|] eqn:E; [|apply IH; exact Hinv].
  apply user_new_tasks_nth in E. destruct E as [Hk ->].
  destruct Hinv as (xs & X & L & ND & F & Hcase).
  destruct (new_user_exchange s (Z.of_nat k + 1) t) as [Hx Hout].
  cbv zeta in Hx, Hout.
  pose proof (new_user_not_running s (Z.of_nat k + 1) PNone PNone PNone t) as Hnr.
  destruct (new_user s (Z.of_nat k + 1) PNone PNone PNone t) as [[a|e|] t1];
    cbn [fst snd] in Hx, Hout, Hnr; [| |contradiction Hnr; reflexivity]; apply IH.
  - destruct Hout as [(body & _ & Hc)|(e & He & _)]; [|discriminate He].
    exists (xs ++ [(new_user_request PNone PNone PNone,
                    serve s t (new_user_request PNone PNone PNone))])%list.
    cbn [finished results first_exception].
    split; [rewrite Hx, X, <- app_assoc; reflexivity|].
    split; [rewrite length_app; cbn; lia|].
    split; [constructor; assumption|].
    split; [constructor; assumption|].
    destruct (first_exception g).
    + intro Hall. apply Hcase. apply Forall_app in Hall. exact (proj1 Hall).
    + destruct Hcase as [Hall Hlen]. split.
      * apply Forall_app. split; [exact Hall|]. constructor; [exact Hc|constructor].
      * rewrite length_app. cbn. lia.
  - destruct Hout as [(body & Hb & _)|(e' & _ & Hc)]; [discriminate Hb|].
    exists (xs ++ [(new_user_request PNone PNone PNone,
                    serve s t (new_user_request PNone PNone PNone))])%list.
    cbn [finished results first_exception].
    split; [rewrite Hx, X, <- app_assoc; reflexivity|].
    split; [rewrite length_app; cbn; lia|].
    split; [constructor; assumption|].
    split; [constructor; assumption|].
    assert (Hbad : ~ Forall created_without_id
                     (xs ++ [(new_user_request PNone PNone PNone,
                              serve s t (new_user_request PNone PNone PNone))])%list).
    { intro Hall. apply Forall_app in Hall. destruct Hall as [_ Hlast].
      inversion Hlast as [|? ? Hh _]; subst. exact (Hc Hh). }
    destruct (first_exception g); exact Hbad.
Qed.

Lemma gather_inv_start (t : trace) : gather_inv t (mkGathered [] [] None) t.
Proof.
  exists []. rewrite app_nil_r. cbn.
  repeat split; constructor.
Qed.

(** Every scheduled task has ended when the schedule is through. *)
Lemma run_tasks_finished {A} (tasks : list (M A)) (schedule : list nat) :
  forall (g : gathered A) (t : trace) (k : nat),
    (In k (finished g) \/ (In k schedule /\ (k < List.length tasks)%nat)) ->
    In k (finished (fst (run_tasks tasks schedule g t))).
Proof.
  induction schedule as [|j rest IH]; intros g t k Hk.
  - cbn. destruct Hk as [H|[[] _]]. exact H.
  - cbn [run_tasks].
    destruct (existsb (Nat.eqb j) (finished g)) eqn:Hmem.
    + apply IH. destruct Hk as [H|[[->|H] Hlt]]; [left; exact H| |right; auto].
      left. apply existsb_exists in Hmem. destruct Hmem as (x & Hx & Hjx).
      apply Nat.eqb_eq in Hjx. subst x. exact Hx.
    + destruct (nth_error tasks j) as [task|] eqn:E.
      * destruct (task t) as [[a|e|] t1]; apply IH; cbn [finished];
          (destruct Hk as [H|[[->|H] Hlt]];
           [left; right; exact H|left; left; reflexivity|right; auto]).
      * apply IH. destruct Hk as [H|[[->|H] Hlt]]; [left; exact H| |right; auto].
        apply nth_error_None in E. lia.
Qed.

(** With a server that lets every creation through, no task raises. *)
Lemma run_tasks_no_exception (s : ClientSession) (schedule : list nat) :
  (forall t0, created_without_id (new_user_request PNone PNone PNone,
                                   serve s t0 (new_user_request PNone PNone PNone))) ->
  forall g t,
    first_exception g = None ->
    first_exception (fst (run_tasks (user_new_tasks s) schedule g t)) = None.
Proof.
  intro Hok. induction schedule as [|k rest IH]; intros g t Hg; [exact Hg|].
  cbn [run_tasks].
  destruct (existsb (Nat.eqb k) (finished g)); [apply IH; exact Hg|].
  destruct (nth_error (user_new_tasks s) k) as [task|] eqn:E; [|apply IH; exact Hg].
  apply user_new_tasks_nth in E. destruct E as [_ ->].
  destruct (new_user_exchange s (Z.of_nat k + 1) t) as [_ Hout].
  cbv zeta in Hout.
  destruct (new_user s (Z.of_nat k + 1) PNone PNone PNone t) as [[a|e|] t1];
    cbn [fst] in Hout; apply IH; cbn [first_exception]; try exact Hg.
  destruct Hout as [(body & Hb & _)|(e' & _ & Hc)]; [discriminate Hb|].
  contradiction (Hc (Hok t)).
Qed.

Lemma test_user_new_run (s : ClientSession) (schedule : list nat) (t : trace) :
  let run := run_tasks (user_new_tasks s) schedule (mkGathered [] [] None) t in
  test_user_new s schedule t =
  (match first_exception (fst run) with
   | Some e => Raises e
   | None => if Nat.eqb (List.length (results (fst run))) 10
             then Returns tt else Running
   end, snd run).
Proof.
  cbv zeta. unfold test_user_new, gather, bind. cbv zeta.
  destruct (run_tasks (user_new_tasks s) schedule (mkGathered [] [] None) t)
    as [g t'].
  cbn [fst snd]. destruct (first_exception g); [reflexivity|].
  change (List.length (user_new_tasks s)) with 10%nat.
  destruct (Nat.eqb (List.length (results g)) 10); reflexivity.
Qed.

(** C7.  [test_user_new] gathers exactly ten [new_user] calls, numbered 1
    to 10, none with an identifier.  Whatever the order in which the
    responses arrive and however many have arrived when the scenario goes
    on, with [xs] the exchanges it has made (at most ten): it succeeds
    exactly when [xs] are ten creations that went through, so it has waited
    for all ten calls; it raises exactly when one of [xs] is not such a
    creation, that is when a call has failed, and the exception is that of
    the first call that failed; as long as fewer than ten calls have ended
    and none has failed it is still waiting.  When every call is scheduled
    and the server lets every creation through, the scenario succeeds. *)
Theorem test_user_new_fanout (s : ClientSession) (schedule : list nat) (t : trace) :
  user_new_tasks s =
  map (fun i => new_user s i PNone PNone PNone) [1; 2; 3; 4; 5; 6; 7; 8; 9; 10]
  /\ List.length (user_new_tasks s) = 10%nat
  /\ dict_lookup "user_id" (new_user_data PNone PNone PNone) = None
  /\ (exists xs,
        exchanges (snd (test_user_new s schedule t)) = (exchanges t ++ xs)%list
        /\ (List.length xs <= 10)%nat
        /\ (fst (test_user_new s schedule t) = Returns tt
            <-> Forall created_without_id xs /\ List.length xs = 10%nat)
        /\ ((exists e, fst (test_user_new s schedule t) = Raises e)
            <-> ~ Forall created_without_id xs)
        /\ (fst (test_user_new s schedule t) = Running
            <-> Forall created_without_id xs /\ (List.length xs < 10)%nat))
  /\ (forall pre k post task g1 t1 e t2,
        schedule = (pre ++ k :: post)%list ->
        run_tasks (user_new_tasks s) pre (mkGathered [] [] None) t = (g1, t1) ->
        first_exception g1 = None ->
        ~ In k (finished g1) ->
        nth_error (user_new_tasks s) k = Some task ->
        task t1 = (Raises e, t2) ->
        fst (test_user_new s schedule t) = Raises e)
  /\ ((forall k, (k < 10)%nat -> In k schedule) ->
      (forall t0, created_without_id
                    (new_user_request PNone PNone PNone,
                     serve s t0 (new_user_request PNone PNone PNone))) ->
      fst (test_user_new s schedule t) = Returns tt).
Proof.
  split; [reflexivity|]. split; [reflexivity|]. split; [reflexivity|].
  pose proof (run_tasks_inv s t schedule _ _ (gather_inv_start t)) as Hinv.
  pose proof (test_user_new_run s schedule t) as Hrun. cbv zeta in Hrun.
  split; [|split].
  - destruct Hinv as (xs & X & L & ND & F & Hcase).
    assert (Hle : (List.length xs <= 10)%nat).
    { rewrite L.
      assert (Hi : incl (finished (fst (run_tasks (user_new_tasks s) schedule
                                          (mkGathered [] [] None) t)))
                        (seq 0 10)).
      { intros k Hk. apply in_seq. rewrite Forall_forall in F.
        specialize (F k Hk). lia. }
      pose proof (NoDup_incl_length ND Hi) as Hl.
      rewrite length_seq in Hl. exact Hl. }
    exists xs. rewrite Hrun. cbn [fst snd]. split; [exact X|]. split; [exact Hle|].
    destruct (first_exception
                (fst (run_tasks (user_new_tasks s) schedule (mkGathered [] [] None) t)))
      as [e|].
    + split; [|split].
      * split; [discriminate|]. intros [Hall _]. contradiction.
      * split; [intros _; exact Hcase|]. intros _. exists e. reflexivity.
      * split; [discriminate|]. intros [Hall _]. contradiction.
    + destruct Hcase as [Hall Hlen]. rewrite Hlen.
      destruct (Nat.eqb_spec (List.length xs) 10) as [E|E].
      * split; [|split].
        -- split; [intros _; split; assumption|reflexivity].
        -- split; [intros [e He]; discriminate He|]. intro Hn. contradiction.
        -- split; [discriminate|]. intros [_ Hlt]. lia.
      * split; [|split].
        -- split; [discriminate|]. intros [_ E']. contradiction.
        -- split; [intros [e He]; discriminate He|]. intro Hn. contradiction.
        -- split; [intros _; split; [exact Hall|lia]|reflexivity].
  - intros pre k post task g1 t1 e t2 -> Hpre Hnone Hnotin Hnth Hraise.
    rewrite Hrun. cbn [fst].
    rewrite run_tasks_app, Hpre. cbn [run_tasks].
    destruct (existsb (Nat.eqb k) (finished g1)) eqn:Hmem.
    { apply existsb_exists in Hmem. destruct Hmem as (x & Hx & Hkx).
      apply Nat.eqb_eq in Hkx. subst x. contradiction. }
    rewrite Hnth, Hraise, Hnone.
    rewrite (first_exception_stays (user_new_tasks s) post
               (mkGathered (k :: finished g1) (results g1) (Some e)) t2 e eq_refl).
    reflexivity.
  - intros Hcover Hok. rewrite Hrun. cbn [fst].
    rewrite (run_tasks_no_exception s schedule Hok (mkGathered [] [] None) t eq_refl).
    destruct Hinv as (xs & X & L & ND & F & Hcase).
    rewrite (run_tasks_no_exception s schedule Hok (mkGathered [] [] None) t eq_refl) in Hcase.
    destruct Hcase as [_ Hlen]. rewrite Hlen, L.
    assert (Hperm : Permutation
                      (finished (fst (run_tasks (user_new_tasks s) schedule
                                         (mkGathered [] [] None) t)))
                      (seq 0 10)).
    { apply NoDup_Permutation; [exact ND|apply seq_NoDup|].
      intro k. split.
      - intro Hk. apply in_seq. rewrite Forall_forall in F. specialize (F k Hk). lia.
      - intro Hk. apply in_seq in Hk. apply run_tasks_finished.
        right. split; [apply Hcover; lia|]. 
        change (List.length (user_new_tasks s)) with 10%nat. lia. }
    rewrite (Permutation_length Hperm). reflexivity.
Qed.

Lemma test_user_new_fanout_witness :
  let schedule := [9; 8; 7; 6; 5; 4; 3; 2; 1; 0]%nat in
  fst (test_user_new (stub_session (mkStub 200 200 403 None)) schedule [])
  = Returns tt
  /\ fst (test_user_new (answering (mkResponse 500 "boom" None)) schedule [])
     = Raises (Exception "Request 10 did not return a 200 status code: 500")
  /\ fst (test_user_new (stub_session (mkStub 200 200 403 None)) [3; 1; 3]%nat [])
     = Running.
Proof.
  cbv zeta. split; [|split].
  - apply (proj2 (proj2 (proj2 (proj2 (proj2
      (test_user_new_fanout (stub_session (mkStub 200 200 403 None))
         [9; 8; 7; 6; 5; 4; 3; 2; 1; 0]%nat [])))))).
    + intros k Hk. do 10 (destruct k as [|k]; [cbn; tauto|]). lia.
    + intro t0. split; [reflexivity|]. split; [reflexivity|discriminate].
  - apply (proj1 (proj2 (proj2 (proj2 (proj2
      (test_user_new_fanout (answering (mkResponse 500 "boom" None))
         [9; 8; 7; 6; 5; 4; 3; 2; 1; 0]%nat [])))))
      [] 9%nat [8; 7; 6; 5; 4; 3; 2; 1; 0]%nat _ _ _ _ _
      eq_refl eq_refl eq_refl ltac:(intros []) eq_refl
      ltac:(vm_compute; reflexivity)).
  - destruct (proj1 (proj2 (proj2 (proj2
      (test_user_new_fanout (stub_session (mkStub 200 200 403 None))
         [3; 1; 3]%nat []))))) as (xs & X & _ & _ & _ & Hwait).
    apply Hwait. change (exchanges [] ++ xs)%list with xs in X.
    rewrite <- X. vm_compute. split; [|lia].
    repeat constructor; discriminate.
Defined.

(** ** The budget reset scenario *)

Lemma count_slept_app (t u : trace) :
  count_slept (t ++ u)%list = (count_slept t + count_slept u)%nat.
Proof. unfold count_slept. rewrite filter_app, length_app. reflexivity. Qed.

Section NeverReset.

Variables (s : ClientSession) (get_user : string) (key init : pyval).

(** What is known of the traces the loop runs from. *)
Variable Inv : trace -> Prop.

Hypothesis Inv_slept : forall t, Inv t -> Inv (t ++ [Slept 70])%list.

(** Every poll finds the reset timestamp equal to the initial one. *)
Hypothesis poll_same :
  forall t, Inv t ->
  exists user_info info v t',
    get_user_info s get_user key None t = (Returns user_info, t')
    /\ subscript user_info "user_info" t' = (Returns info, t')
    /\ subscript info "budget_reset_at" t' = (Returns v, t')
    /\ py_ne init v = false
    /\ Inv t' /\ count_slept t' = count_slept t.

(** The counter is 0 at every test of the loop: whatever the bound, the
    loop is still running when it is reached, after one sleep and one
    lookup per iteration. *)
Lemma poll_loop_running (fuel : nat) :
  forall v t, Inv t ->
  exists t',
    poll_loop s get_user key init fuel 0 v t = (Running, t')
    /\ count_slept t' = (count_slept t + fuel)%nat.
Proof.
  induction fuel as [|fuel IH]; intros v t Ht.
  - exists t. split; [reflexivity|lia].
  - cbn [poll_loop]. change (0 <? 3) with true. cbv iota.
    unfold bind at 1. unfold emit.
    destruct (poll_same _ (Inv_slept _ Ht))
      as (ui & info & v' & t' & Hget & Hui & Hinfo & Hne & Ht' & Hc).
    rewrite (bind_step _ _ _ _ _ Hget).
    rewrite (bind_step _ _ _ _ _ Hui).
    rewrite (bind_step _ _ _ _ _ Hinfo).
    rewrite Hne. cbv zeta.
    destruct (IH v' t' Ht') as (t'' & Hrun & Hc').
    exists t''. split; [exact Hrun|].
    rewrite Hc', Hc, count_slept_app. cbn. lia.
Qed.

End NeverReset.

Lemma stub_lookup_own_key (rest : trace) :
  let cfg := mkStub 200 200 403 None in
  let t := Http (new_user_request (PStr (krrish "1.5")) (PInt 10) (PStr "5s"))
                (mkResponse 200 "created" (Some (PDict [("key", PStr "sk-user-0")])))
           :: rest in
  serve (stub_session cfg) t
        (user_info_request (krrish "1.5") (PStr "sk-user-0") None)
  = mkResponse 200 "ok"
      (Some (PDict [("user_info",
                     PDict [("spend", PInt 0);
                            ("budget_reset_at", PStr "2024-01-01T00:00:00")])])).
Proof. reflexivity. Qed.

(** C5 on a server whose reset timestamp never changes: the user is
    created, the initial timestamp is read, and the loop is entered.  The
    failed comparison runs [i + 1], which leaves [i] at 0, so the loop does
    not stop at three attempts: whatever the number of iterations allowed,
    the scenario is still inside the loop, having slept that many times,
    and the final assertion is not reached. *)
Theorem budget_reset_poll_never_stops (fuel : nat) :
  exists t',
    test_users_budgets_reset (stub_session (mkStub 200 200 403 None)) "1.5" fuel []
    = (Running, t')
    /\ count_slept t' = fuel.
Proof.
  pose (Inv := fun t : trace =>
    exists rest,
      t = Http (new_user_request (PStr (krrish "1.5")) (PInt 10) (PStr "5s"))
               (mkResponse 200 "created" (Some (PDict [("key", PStr "sk-user-0")])))
          :: rest).
  assert (Hslept : forall t, Inv t -> Inv (t ++ [Slept 70])%list).
  { intros t [rest ->]. exists (rest ++ [Slept 70])%list. reflexivity. }
  assert (Hsame : forall t, Inv t ->
    exists user_info info v t',
      get_user_info (stub_session (mkStub 200 200 403 None)) (krrish "1.5")
                    (PStr "sk-user-0") None t = (Returns user_info, t')
      /\ subscript user_info "user_info" t' = (Returns info, t')
      /\ subscript info "budget_reset_at" t' = (Returns v, t')
      /\ py_ne (PStr "2024-01-01T00:00:00") v = false
      /\ Inv t' /\ count_slept t' = count_slept t).
  { intros t [rest ->]. rewrite get_user_info_run. cbv zeta.
    rewrite stub_lookup_own_key. cbn [status json Z.eqb Pos.eqb].
    do 4 eexists. split; [reflexivity|].
    split; [reflexivity|]. split; [reflexivity|]. split; [reflexivity|].
    split.
    - eexists. reflexivity.
    - rewrite count_slept_app. cbn. lia. }
  unfold test_users_budgets_reset. cbv zeta.
  erewrite bind_step; [|vm_compute; reflexivity]. cbv beta.
  erewrite bind_step; [|vm_compute; reflexivity]. cbv beta.
  erewrite bind_step; [|vm_compute; reflexivity]. cbv beta.
  erewrite bind_step; [|vm_compute; reflexivity]. cbv beta.
  erewrite bind_step; [|vm_compute; reflexivity]. cbv beta.
  match goal with
  | |- context [poll_loop ?s ?g ?k ?i fuel 0 ?v] =>
      match goal with
      | |- exists t', bind _ _ ?t = _ /\ _ =>
          destruct (poll_loop_running s g k i Inv Hslept Hsame fuel v t)
            as (t' & Hrun & Hc)
      end
  end.
  { eexists. reflexivity. }
  exists t'. split.
  - unfold bind. rewrite Hrun. reflexivity.
  - rewrite Hc. reflexivity.
Qed.

(** ** Chat completions *)

Lemma for_each_log (prefix : string) (cs : list string) (t : trace) :
  exists logs,
    for_each cs (fun chunk => ai_log (prefix ++ chunk) "info") t
    = (Returns tt, (t ++ logs)%list)
    /\ requests logs = []
    /\ List.length logs = List.length cs.
Proof.
  revert t. induction cs as [|c cs IH]; intro t.
  - exists []. rewrite app_nil_r. repeat split.
  - cbn [for_each]. unfold bind at 1. rewrite ai_log_info.
    destruct (IH (t ++ [Logged INFO (prefix ++ c)])%list) as (logs & H & Hr & Hl).
    exists (Logged INFO (prefix ++ c) :: logs). split; [|split].
    + rewrite H, <- app_assoc. reflexivity.
    + exact Hr.
    + cbn. rewrite Hl. reflexivity.
Qed.

(** C9.  Neither [chat_completion] nor [chat_completion_streaming] reads
    its [session] argument: with the same key and model, two sessions give
    the same result and the same trace.  Each helper makes its one call
    through a client built from the key and the fixed base address, and no
    request goes through the session. *)
Theorem chat_completion_ignores_session (backend : OpenAIBackend) (now : string)
    (session1 session2 : ClientSession) (key model : string) (t : trace) :
  chat_completion backend now session1 key model t
  = chat_completion backend now session2 key model t
  /\ chat_completion_streaming backend now session1 key model t
     = chat_completion_streaming backend now session2 key model t
  /\ (exists logs,
        snd (chat_completion backend now session1 key model t)
        = (t ++ Completion (mkAsyncOpenAI key "http://0.0.0.0:4000")
                           (mkChatData model (chat_messages now) false)
             :: logs)%list
        /\ requests logs = [])
  /\ (exists logs,
        snd (chat_completion_streaming backend now session1 key model t)
        = (t ++ Completion (mkAsyncOpenAI key "http://0.0.0.0:4000")
                           (mkChatData model (chat_messages now) true)
             :: logs)%list
        /\ requests logs = []).
Proof.
  split; [reflexivity|]. split; [reflexivity|]. split.
  - unfold chat_completion, bind, create. cbv zeta.
    destruct (complete backend t _ _) as [e|r].
    + exists []. split; reflexivity.
    + rewrite ai_log_info. eexists [_]. cbn [snd].
      rewrite <- app_assoc. split; reflexivity.
  - unfold chat_completion_streaming, bind, create_stream. cbv zeta.
    destruct (chunks backend t _ _) as [e|cs].
    + exists []. split; reflexivity.
    + destruct (for_each_log "Streaming chunk received: " cs
                  (t ++ [Completion (mkAsyncOpenAI key proxy_base_url)
                                    (mkChatData model (chat_messages now) true)])%list)
        as (logs & H & Hr & _).
      rewrite H. exists logs. cbn [snd]. rewrite <- app_assoc.
      split; [reflexivity|exact Hr].
Qed.

(** ** The update scenario *)

(** C10.  [test_user_update] does nothing: from any trace it returns at
    once with the trace unchanged, so it sends no request, writes no log,
    asserts nothing and cannot fail. *)
Theorem test_user_update_noop (t : trace) :
  test_user_update t = (Returns tt, t)
  /\ requests (snd (test_user_update t)) = requests t.
Proof. split; reflexivity. Qed.

Example spend_scenario_passes :
  fst (test_global_proxy_budget_update stub_backend str_scalar "1.5" "2.5"
         spending_session []) = Returns tt.
Proof. vm_compute. reflexivity. Qed.

Example spend_scenario_flat :
  fst (test_global_proxy_budget_update stub_backend str_scalar "1.5" "2.5"
         (stub_session (mkStub 200 200 403 None)) []) = Raises AssertionError.
Proof. vm_compute. reflexivity. Qed.

Example py_gt_lists :
  py_gt (PList [PInt 1; PInt 3]) (PList [PBool true; PInt 2; PNone]) = Some true
  /\ py_gt (PList [PInt 1]) (PList [PInt 1; PNone]) = Some false
  /\ py_gt (PList [PNone]) (PList [PInt 1]) = None
  /\ py_gt (PStr "b") (PStr "ab") = Some true.
Proof. repeat split. Qed.

(** ** What reaches the output *)

Lemma string_app_assoc (a b c : string) :
  ((a ++ b) ++ c = a ++ (b ++ c))%string.
Proof. induction a as [|x a IH]; cbn; [reflexivity|]. f_equal. exact IH. Qed.

(** X1.  Unless the level is exactly [debug], a call of [ai_log] adds one
    line to the output, at level info, error or warning, and the line ends
    with the message; at level [debug] the output is unchanged. *)
Theorem ai_log_output (message level : string) (t : trace) :
  (level <> "debug" ->
   exists lvl prefix,
     (lvl = INFO \/ lvl = ERROR \/ lvl = WARNING)
     /\ written (snd (ai_log message level t)) =
        (written t ++ [(lvl, (prefix ++ message)%string)])%list)
  /\ (level = "debug" -> written (snd (ai_log message level t)) = written t).
Proof.
  split.
  - intro Hd. unfold ai_log.
    destruct (String.eqb_spec level "info") as [_|_].
    { exists INFO, "". split; [auto|]. cbn [snd emit]. unfold emit. cbn [snd].
      rewrite written_app. reflexivity. }
    destruct (String.eqb_spec level "error") as [_|_].
    { exists ERROR, "". split; [auto|]. unfold emit. cbn [snd].
      rewrite written_app. reflexivity. }
    destruct (String.eqb_spec level "debug") as [E|_]; [contradiction|].
    exists WARNING, ("Unknown log level: " ++ level ++ ". Message: ").
    split; [auto|]. unfold emit. cbn [snd]. rewrite written_app. cbn.
    rewrite !string_app_assoc. reflexivity.
  - intros ->. rewrite ai_log_debug. cbn [snd]. rewrite written_app.
    cbn. apply app_nil_r.
Qed.

Lemma ai_log_output_witness :
  exists lvl prefix,
    (lvl = INFO \/ lvl = ERROR \/ lvl = WARNING)
    /\ written (snd (ai_log "m" "warn" [])) = [(lvl, (prefix ++ "m")%string)].
Proof.
  apply (proj1 (ai_log_output "m" "warn" [])). discriminate.
Defined.

Lemma str_int_inj (a b : Z) : str_int a = str_int b -> a = b.
Proof.
  unfold str_int. intro H. apply DecimalZ.to_int_inj.
  assert (Hnn : forall z, Z.to_int z <> Decimal.Pos Decimal.Nil
                          /\ Z.to_int z <> Decimal.Neg Decimal.Nil).
  { intro z. destruct z as [|p|p]; cbn; split; try discriminate;
      intro E; injection E as E; exact (DecimalPos.Unsigned.to_uint_nonnil p E). }
  pose proof (NilZero.isi (Z.to_int a) (proj1 (Hnn a)) (proj2 (Hnn a))) as Ha.
  pose proof (NilZero.isi (Z.to_int b) (proj1 (Hnn b)) (proj2 (Hnn b))) as Hb.
  rewrite H in Ha. rewrite Ha in Hb. injection Hb as Hb. exact Hb.
Qed.

(** The message of a code outside the table. *)
Lemma error_message_for_cases (status_code : Z) :
  (status_code = 400 \/ status_code = 401 \/ status_code = 403
   \/ status_code = 404 \/ status_code = 500)
  \/ error_message_for status_code = "Unexpected error: " ++ str_int status_code.
Proof.
  destruct (Z.eq_dec status_code 400); [left; tauto|].
  destruct (Z.eq_dec status_code 401); [left; tauto|].
  destruct (Z.eq_dec status_code 403); [left; tauto|].
  destruct (Z.eq_dec status_code 404); [left; tauto|].
  destruct (Z.eq_dec status_code 500); [left; tauto|].
  right. apply error_message_for_other; assumption.
Qed.

(** X2.  The classifier's message tells the status code: two codes with
    the same message are the same code. *)
Theorem error_message_for_inj (a b : Z) :
  error_message_for a = error_message_for b -> a = b.
Proof.
  intro H.
  destruct (error_message_for_cases a) as [[->|[->|[->|[->| ->]]]]|Ha];
    destruct (error_message_for_cases b) as [[->|[->|[->|[->| ->]]]]|Hb];
    try reflexivity;
    try (cbv [error_message_for error_messages dict_get Z.eqb Pos.eqb] in H;
         discriminate H);
    try (rewrite Hb in H;
         cbv [error_message_for error_messages dict_get Z.eqb Pos.eqb] in H;
         cbn [append] in H; discriminate H);
    try (rewrite Ha in H;
         cbv [error_message_for error_messages dict_get Z.eqb Pos.eqb] in H;
         cbn [append] in H; discriminate H).
  rewrite Ha, Hb in H. cbn [append] in H.
  apply str_int_inj.
  repeat (injection H as H). exact H.
Qed.

Lemma error_message_for_inj_witness : 404 = 404.
Proof. apply (error_message_for_inj 404 404). reflexivity. Defined.

(** ** More on the lookup helper *)

Lemma actions_app (t u : trace) : actions (t ++ u)%list = (actions t ++ actions u)%list.
Proof. unfold actions. apply filter_app. Qed.

(** X3.  Whatever the outcome, [get_user_info] sends exactly one request:
    a [GET] without body whose bearer is [call_user]; the URL is the plain
    listing only when [view_all] is [True], and names the user otherwise
    ([False] and [None] alike). *)
Theorem get_user_info_request (s : ClientSession) (get_user : string)
    (call_user : pyval) (view_all : option bool) (t : trace) :
  let rq := user_info_request get_user call_user view_all in
  (exists rs logs,
     snd (get_user_info s get_user call_user view_all t)
     = (t ++ Http rq rs :: logs)%list /\ actions logs = [])
  /\ rq_method rq = GET /\ rq_json rq = None
  /\ Authorization (rq_headers rq) = Bearer call_user
  /\ (view_all = Some true -> rq_url rq = "http://0.0.0.0:4000/user/info")
  /\ (view_all <> Some true ->
      rq_url rq = "http://0.0.0.0:4000/user/info?user_id=" ++ get_user).
Proof.
  cbv zeta. split.
  { rewrite get_user_info_run. cbv zeta.
    destruct (status _ =? 200).
    - eexists. eexists. split; reflexivity.
    - destruct (py_ne call_user (PStr get_user)); cbn [snd];
        eexists; eexists; (split; [rewrite <- !app_assoc; reflexivity|reflexivity]). }
  repeat split.
  - intros ->. reflexivity.
  - intro H. destruct view_all as [[|]|]; [contradiction H| |]; reflexivity.
Qed.

Lemma get_user_info_request_witness :
  rq_url (user_info_request "u1" (PStr "k") (Some true))
  = "http://0.0.0.0:4000/user/info"
  /\ rq_url (user_info_request "u1" (PStr "k") (Some false))
     = "http://0.0.0.0:4000/user/info?user_id=u1".
Proof.
  split.
  - apply (proj1 (proj2 (proj2 (proj2 (proj2
      (get_user_info_request (answering (mkResponse 200 "" None))
                             "u1" (PStr "k") (Some true) [])))))).
    reflexivity.
  - apply (proj2 (proj2 (proj2 (proj2 (proj2
      (get_user_info_request (answering (mkResponse 200 "" None))
                             "u1" (PStr "k") (Some false) [])))))).
    discriminate.
Defined.

(** X4.  What a lookup writes to the output.  A 200 answer gives one info
    line.  Any other answer gives the info line and the classifier's error
    line, also when the status is then returned as data to a caller whose
    token differs from the identifier; when the token equals the
    identifier a second error line names both before the exception. *)
Theorem get_user_info_output (s : ClientSession) (get_user : string)
    (call_user : pyval) (view_all : option bool) (t : trace) :
  let rs := serve s t (user_info_request get_user call_user view_all) in
  let info_line :=
    (INFO, ("User info response for " ++ get_user ++ ": " ++ text rs)%string) in
  let error_line :=
    (ERROR, ("Error occurred: " ++ error_message_for (status rs) ++ nl
               ++ "Response: " ++ text rs)%string) in
  let out := written (snd (get_user_info s get_user call_user view_all t)) in
  (status rs = 200 -> out = (written t ++ [info_line])%list)
  /\ (status rs <> 200 -> py_ne call_user (PStr get_user) = true ->
      fst (get_user_info s get_user call_user view_all t) = Returns (PInt (status rs))
      /\ out = (written t ++ [info_line; error_line])%list)
  /\ (status rs <> 200 -> call_user = PStr get_user ->
      out = (written t ++ [info_line; error_line;
                           (ERROR, ("call_user: " ++ get_user ++ "; get_user: "
                                     ++ get_user)%string)])%list).
Proof.
  cbv zeta. rewrite get_user_info_run. cbv zeta. split; [|split].
  - intros ->. cbn [Z.eqb Pos.eqb snd]. rewrite written_app. reflexivity.
  - intros Hne Hstranger.
    destruct (Z.eqb_spec (status (serve s t
                (user_info_request get_user call_user view_all))) 200) as [E|_];
      [contradiction|].
    rewrite Hstranger. split; [reflexivity|].
    cbn [snd]. rewrite !written_app. cbn. rewrite <- app_assoc. reflexivity.
  - intros Hne ->.
    destruct (Z.eqb_spec (status (serve s t
                (user_info_request get_user (PStr get_user) view_all))) 200) as [E|_];
      [contradiction|].
    unfold py_ne. cbn [py_eqb]. rewrite String.eqb_refl. cbn [negb snd].
    rewrite !written_app. cbn. rewrite <- !app_assoc. reflexivity.
Qed.

Lemma get_user_info_output_witness :
  written (snd (get_user_info (answering (mkResponse 403 "no" None))
                              "u1" (PStr "sk-other") None []))
  = [(INFO, "User info response for u1: no");
     (ERROR, ("Error occurred: Forbidden: You don't have permission to access this resource."
                ++ nl ++ "Response: no")%string)]
  /\ written (snd (get_user_info (answering (mkResponse 200 "yes" (Some PNone)))
                                 "u1" (PStr "sk-other") None []))
     = [(INFO, "User info response for u1: yes")]
  /\ List.length
       (written (snd (get_user_info (answering (mkResponse 500 "no" None))
                                    "u1" (PStr "u1") None []))) = 3%nat.
Proof.
  split; [|split].
  - apply (proj2 (proj1 (proj2
      (get_user_info_output (answering (mkResponse 403 "no" None))
                            "u1" (PStr "sk-other") None []))
      ltac:(discriminate) eq_refl)).
  - apply (proj1
      (get_user_info_output (answering (mkResponse 200 "yes" (Some PNone)))
                            "u1" (PStr "sk-other") None [])).
    reflexivity.
  - rewrite (proj2 (proj2
      (get_user_info_output (answering (mkResponse 500 "no" None))
                            "u1" (PStr "u1") None []))
      ltac:(discriminate) eq_refl).
    reflexivity.
Defined.

(** ** More on the visibility scenario *)

(** X5.  The assertion of [test_user_info] is on the value the last lookup
    returns, and a 200 answer returns its parsed body: when the steps
    before it have gone through and the last lookup is answered 200 with
    the number 403 as body, the scenario passes although the status is not
    403. *)
Theorem test_user_info_passes_on_body_403 (s : ClientSession) (now : string)
    (t t4 : trace) (random_key : pyval) :
  test_user_info_setup s now t = (Returns random_key, t4) ->
  status (serve s t4 (user_info_request (krrish now) random_key None)) = 200 ->
  json (serve s t4 (user_info_request (krrish now) random_key None))
  = Some (PInt 403) ->
  fst (test_user_info s now t) = Returns tt.
Proof.
  intros Hsetup H200 Hbody. rewrite test_user_info_split.
  rewrite (bind_step _ _ _ _ _ Hsetup).
  unfold bind. rewrite get_user_info_run. cbv zeta.
  rewrite H200, Hbody. reflexivity.
Qed.

Lemma test_user_info_passes_on_body_403_witness :
  fst (test_user_info (lookup_session 200 (Some (PInt 403))) "1.5" []) = Returns tt.
Proof.
  eapply (test_user_info_passes_on_body_403
            (lookup_session 200 (Some (PInt 403))) "1.5" []).
  - vm_compute. reflexivity.
  - reflexivity.
  - reflexivity.
Defined.

(** X6.  When the first creation is not answered 200, [test_user_info]
    stops there: it raises the exception of request 0 carrying the status,
    and that creation is the only request it has made. *)
Theorem test_user_info_creation_fails (s : ClientSession) (now : string) (t : trace) :
  let rq := new_user_request (PStr (krrish now)) PNone PNone in
  let rs := serve s t rq in
  status rs <> 200 ->
  fst (test_user_info s now t)
  = Raises (Exception ("Request 0 did not return a 200 status code: "
                         ++ str_int (status rs)))
  /\ exchanges (snd (test_user_info s now t)) = (exchanges t ++ [(rq, rs)])%list.
Proof.
  cbv zeta. intro Hne. unfold test_user_info. cbv zeta.
  erewrite bind_raises;
    [|rewrite new_user_run; cbv zeta;
      destruct (Z.eqb_spec (status (serve s t
                  (new_user_request (PStr (krrish now)) PNone PNone))) 200) as [E|_];
      [contradiction|reflexivity]].
  rewrite ai_dynamic_error_handling_run. cbn [fst snd].
  split; [reflexivity|].
  rewrite !exchanges_app. cbn. rewrite app_nil_r. reflexivity.
Qed.

Lemma test_user_info_creation_fails_witness :
  fst (test_user_info (answering (mkResponse 401 "no" None)) "1.5" [])
  = Raises (Exception "Request 0 did not return a 200 status code: 401")
  /\ List.length
       (exchanges (snd (test_user_info (answering (mkResponse 401 "no" None))
                                       "1.5" []))) = 1%nat.
Proof.
  destruct (test_user_info_creation_fails
              (answering (mkResponse 401 "no" None)) "1.5" [] ltac:(discriminate))
    as [H1 H2].
  split; [exact H1|]. rewrite H2. reflexivity.
Defined.

(** X7.  When the first creation is answered 200 with a body that has no
    ["key"] entry, [test_user_info] raises [KeyError] for that key, and
    [TypeError] when the body is not an object at all; in both cases no
    lookup has been made. *)
Theorem test_user_info_key_missing (s : ClientSession) (now : string) (t : trace)
    (body : pyval) :
  let rq := new_user_request (PStr (krrish now)) PNone PNone in
  let rs := serve s t rq in
  status rs = 200 -> json rs = Some body ->
  (forall kvs, body = PDict kvs -> dict_lookup "key" kvs = None) ->
  fst (test_user_info s now t)
  = Raises (match body with PDict _ => KeyError "key" | _ => TypeError end)
  /\ exchanges (snd (test_user_info s now t)) = (exchanges t ++ [(rq, rs)])%list.
Proof.
  cbv zeta. intros H200 Hbody Hkey. unfold test_user_info. cbv zeta.
  erewrite bind_step;
    [|rewrite new_user_run; cbv zeta; rewrite H200, Hbody; reflexivity].
  assert (Hsub : forall t1,
            subscript body "key" t1
            = (Raises (match body with PDict _ => KeyError "key" | _ => TypeError end),
               t1)).
  { intro t1. destruct body; try reflexivity.
    cbn [subscript]. rewrite (Hkey kvs eq_refl). reflexivity. }
  erewrite bind_raises; [|apply Hsub].
  cbn [fst snd]. split; [reflexivity|].
  rewrite exchanges_app. reflexivity.
Qed.

Lemma test_user_info_key_missing_witness :
  fst (test_user_info
         (answering (mkResponse 200 "{}" (Some (PDict [("user_id", PStr "u")]))))
         "1.5" []) = Raises (KeyError "key")
  /\ fst (test_user_info (answering (mkResponse 200 "[]" (Some (PList []))))
                         "1.5" []) = Raises TypeError.
Proof.
  split.
  - apply (proj1 (test_user_info_key_missing
             (answering (mkResponse 200 "{}" (Some (PDict [("user_id", PStr "u")]))))
             "1.5" [] (PDict [("user_id", PStr "u")]) eq_refl eq_refl
             ltac:(intros kvs H; injection H as <-; reflexivity))).
  - apply (proj1 (test_user_info_key_missing
             (answering (mkResponse 200 "[]" (Some (PList []))))
             "1.5" [] (PList []) eq_refl eq_refl
             ltac:(intros kvs H; discriminate H))).
Defined.

(** X8.  The admin token is never taken for the identifier
    [krrish_<now>@berri.ai]: the admin lookup of [test_user_info] returns
    any status other than 200 as data, it does not raise for it. *)
Theorem admin_lookup_returns_status (s : ClientSession) (now : string)
    (view_all : option bool) (t : trace) :
  let rs := serve s t (user_info_request (krrish now) (PStr "sk-1234") view_all) in
  status rs <> 200 ->
  fst (get_user_info s (krrish now) (PStr "sk-1234") view_all t)
  = Returns (PInt (status rs)).
Proof.
  cbv zeta. intro Hne. rewrite get_user_info_run. cbv zeta.
  destruct (Z.eqb_spec (status (serve s t
              (user_info_request (krrish now) (PStr "sk-1234") view_all))) 200) as [E|_];
    [contradiction|].
  reflexivity.
Qed.

Lemma admin_lookup_returns_status_witness :
  fst (get_user_info (answering (mkResponse 500 "down" None))
                     (krrish "1.5") (PStr "sk-1234") None [])
  = Returns (PInt 500).
Proof.
  apply (admin_lookup_returns_status (answering (mkResponse 500 "down" None))
                                     "1.5" None []).
  discriminate.
Defined.

(** ** More on the budget reset scenario *)

Lemma bind_not_asserting {A B} (m : M A) (k : A -> M B) (t : trace) :
  fst (m t) <> Raises AssertionError ->
  (forall a t1, m t = (Returns a, t1) -> fst (k a t1) <> Raises AssertionError) ->
  fst (bind m k t) <> Raises AssertionError.
Proof.
  unfold bind. destruct (m t) as [[a|e|] t1]; cbn [fst]; intros Hm Hk.
  - apply Hk. reflexivity.
  - intro E. apply Hm. injection E as ->. reflexivity.
  - discriminate.
Qed.

Lemma new_user_not_asserting (s : ClientSession) (i : Z)
    (user_id budget budget_duration : pyval) (t : trace) :
  fst (new_user s i user_id budget budget_duration t) <> Raises AssertionError.
Proof.
  rewrite new_user_run. cbv zeta.
  destruct (status _ =? 200); [destruct (json _)|]; discriminate.
Qed.

Lemma get_user_info_not_asserting (s : ClientSession) (get_user : string)
    (call_user : pyval) (view_all : option bool) (t : trace) :
  fst (get_user_info s get_user call_user view_all t) <> Raises AssertionError.
Proof.
  rewrite get_user_info_run. cbv zeta.
  destruct (status _ =? 200); [destruct (json _)|destruct (py_ne _ _)];
    discriminate.
Qed.

Lemma subscript_not_asserting (v : pyval) (key : string) (t : trace) :
  fst (subscript v key t) <> Raises AssertionError.
Proof.
  unfold subscript. destruct v; try discriminate.
  destruct (dict_lookup key kvs); discriminate.
Qed.

Lemma get_user_info_count_slept (s : ClientSession) (get_user : string)
    (call_user : pyval) (view_all : option bool) (t : trace) :
  count_slept (snd (get_user_info s get_user call_user view_all t)) = count_slept t.
Proof.
  rewrite get_user_info_run. cbv zeta.
  destruct (status _ =? 200); [|destruct (py_ne _ _)]; cbn [snd];
    rewrite !count_slept_app; cbn; lia.
Qed.

(** The loop entered with [i = 0] is left only through [break]: the value
    it leaves differs from the initial one, and it raises no
    [AssertionError]. *)
Lemma poll_loop_leaves_changed (s : ClientSession) (get_user : string)
    (key init : pyval) (fuel : nat) :
  forall v0 t,
    fst (poll_loop s get_user key init fuel 0 v0 t) <> Raises AssertionError
    /\ (forall v t', poll_loop s get_user key init fuel 0 v0 t = (Returns v, t') ->
                     py_ne init v = true).
Proof.
  induction fuel as [|fuel IH]; intros v0 t.
  - split; [discriminate|]. intros v t' H. discriminate H.
  - cbn [poll_loop]. change (0 <? 3) with true. cbv iota. split.
    + apply bind_not_asserting; [discriminate|]. intros [] t1 _.
      apply bind_not_asserting; [apply get_user_info_not_asserting|].
      intros ui t2 _.
      apply bind_not_asserting; [apply subscript_not_asserting|].
      intros info t3 _.
      apply bind_not_asserting; [apply subscript_not_asserting|].
      intros v t4 _.
      destruct (py_ne init v); [discriminate|]. apply IH.
    + intros v t' H.
      bind_inv H u t1 H1. bind_inv H ui t2 H2.
      bind_inv H info t3 H3. bind_inv H v1 t4 H4.
      destruct (py_ne init v1) eqn:Hne.
      * unfold ret in H. injection H as <- _. exact Hne.
      * cbv zeta in H. exact (proj2 (IH v1 t4) v t' H).
Qed.

(** X9.  [test_users_budgets_reset] never fails its final assertion: the
    loop is left only when the two timestamps differ, which is what the
    assertion tests again.  Whatever the server does and however long the
    loop runs, the scenario raises no [AssertionError]. *)
Theorem budget_reset_never_asserts (s : ClientSession) (now : string)
    (fuel : nat) (t : trace) :
  fst (test_users_budgets_reset s now fuel t) <> Raises AssertionError.
Proof.
  unfold test_users_budgets_reset. cbv zeta.
  apply bind_not_asserting; [apply new_user_not_asserting|]. intros key_gen t1 _.
  apply bind_not_asserting; [apply subscript_not_asserting|]. intros key t2 _.
  apply bind_not_asserting; [apply get_user_info_not_asserting|]. intros ui t3 _.
  apply bind_not_asserting; [apply subscript_not_asserting|]. intros info t4 _.
  apply bind_not_asserting; [apply subscript_not_asserting|]. intros init t5 _.
  apply bind_not_asserting;
    [apply (proj1 (poll_loop_leaves_changed s (krrish now) key init fuel PNone t5))|].
  intros v t6 Hloop.
  rewrite (proj2 (poll_loop_leaves_changed s (krrish now) key init fuel PNone t5)
             v t6 Hloop).
  discriminate.
Qed.

Section FirstReset.

Variables (s : ClientSession) (get_user : string) (key init : pyval).

(** The number of polls that find the timestamp unchanged. *)
Variable n : nat.

(** What is known of the trace when [k] polls have been made. *)
Variable Inv : nat -> trace -> Prop.

(** After the next sleep, poll number [k] succeeds; its timestamp differs
    from the initial one exactly when [k = n]. *)
Hypothesis poll_at :
  forall k t, (k <= n)%nat -> Inv k t ->
  exists user_info info v t',
    get_user_info s get_user key None (t ++ [Slept 70])%list = (Returns user_info, t')
    /\ subscript user_info "user_info" t' = (Returns info, t')
    /\ subscript info "budget_reset_at" t' = (Returns v, t')
    /\ py_ne init v = Nat.eqb k n
    /\ Inv (S k) t'.

Lemma poll_loop_stops_from (d : nat) :
  forall k fuel v0 t,
    (k + d = n)%nat -> (d < fuel)%nat -> Inv k t ->
    exists v t',
      poll_loop s get_user key init fuel 0 v0 t = (Returns v, t')
      /\ py_ne init v = true
      /\ count_slept t' = (count_slept t + S d)%nat.
Proof.
  induction d as [|d IH]; intros k fuel v0 t Hk Hfuel Ht;
    (destruct fuel as [|fuel]; [lia|]);
    cbn [poll_loop]; change (0 <? 3) with true; cbv iota;
    unfold bind at 1; unfold emit;
    destruct (poll_at k t ltac:(lia) Ht)
      as (ui & info & v & t' & Hget & Hui & Hinfo & Hne & Ht');
    rewrite (bind_step _ _ _ _ _ Hget);
    rewrite (bind_step _ _ _ _ _ Hui);
    rewrite (bind_step _ _ _ _ _ Hinfo);
    pose proof (get_user_info_count_slept s get_user key None
                  (t ++ [Slept 70])%list) as Hc;
    rewrite Hget in Hc; cbn [snd] in Hc; rewrite count_slept_app in Hc;
    cbn in Hc.
  - replace (Nat.eqb k n) with true in Hne
      by (symmetry; apply Nat.eqb_eq; lia).
    rewrite Hne. exists v, t'. split; [reflexivity|]. split; [exact Hne|]. lia.
  - replace (Nat.eqb k n) with false in Hne
      by (symmetry; apply Nat.eqb_neq; lia).
    rewrite Hne. cbv zeta.
    destruct (IH (S k) fuel v t' ltac:(lia) ltac:(lia) Ht')
      as (v' & t'' & Hrun & Hv & Hc').
    exists v', t''. split; [exact Hrun|]. split; [exact Hv|]. lia.
Qed.

End FirstReset.

(** X10.  The loop of [test_users_budgets_reset] ends at the first poll
    whose timestamp differs from the initial one, however late that is:
    when [n] polls find it unchanged and the next one finds it changed, the
    loop returns the changed value after [n + 1] sleeps, also for [n] of 3
    and more. *)
Theorem poll_loop_stops_at_first_change (s : ClientSession) (get_user : string)
    (key init : pyval) (n : nat) (Inv : nat -> trace -> Prop)
    (fuel : nat) (v0 : pyval) (t : trace) :
  (forall k t0, (k <= n)%nat -> Inv k t0 ->
   exists user_info info v t',
     get_user_info s get_user key None (t0 ++ [Slept 70])%list
     = (Returns user_info, t')
     /\ subscript user_info "user_info" t' = (Returns info, t')
     /\ subscript info "budget_reset_at" t' = (Returns v, t')
     /\ py_ne init v = Nat.eqb k n
     /\ Inv (S k) t') ->
  (n < fuel)%nat -> Inv 0%nat t ->
  exists v t',
    poll_loop s get_user key init fuel 0 v0 t = (Returns v, t')
    /\ py_ne init v = true
    /\ count_slept t' = (count_slept t + S n)%nat.
Proof.
  intros Hpoll Hfuel Ht.
  exact (poll_loop_stops_from s get_user key init n Inv Hpoll n 0%nat fuel v0 t
           eq_refl Hfuel Ht).
Qed.

Lemma stub_lookup_own_key_after (r : option nat) (rest : trace) :
  let cfg := mkStub 200 200 403 r in
  let t := Http (new_user_request (PStr (krrish "1.5")) (PInt 10) (PStr "5s"))
                (mkResponse 200 "created" (Some (PDict [("key", PStr "sk-user-0")])))
           :: rest in
  serve (stub_session cfg) t
        (user_info_request (krrish "1.5") (PStr "sk-user-0") None)
  = mkResponse 200 "ok" (Some (stub_info cfg t)).
Proof. reflexivity. Qed.

Lemma stub_poll_at (n k : nat) (t : trace) :
  (k <= n)%nat -> created_then_slept k t ->
  exists user_info info v t',
    get_user_info (stub_session (mkStub 200 200 403 (Some (S n)))) (krrish "1.5")
                  (PStr "sk-user-0") None (t ++ [Slept 70])%list
    = (Returns user_info, t')
    /\ subscript user_info "user_info" t' = (Returns info, t')
    /\ subscript info "budget_reset_at" t' = (Returns v, t')
    /\ py_ne (PStr "2024-01-01T00:00:00") v = Nat.eqb k n
    /\ created_then_slept (S k) t'.
Proof.
  intros Hk [[rest ->] Hc].
  rewrite get_user_info_run. cbv zeta. cbn [app].
  rewrite stub_lookup_own_key_after. cbn [status json Z.eqb Pos.eqb].
  assert (Hs : count_slept
                 (Http (new_user_request (PStr (krrish "1.5")) (PInt 10) (PStr "5s"))
                       (mkResponse 200 "created"
                                   (Some (PDict [("key", PStr "sk-user-0")])))
                  :: rest ++ [Slept 70])%list = S k).
  { change (count_slept
              ((Http (new_user_request (PStr (krrish "1.5")) (PInt 10) (PStr "5s"))
                     (mkResponse 200 "created"
                                 (Some (PDict [("key", PStr "sk-user-0")])))
                :: rest) ++ [Slept 70])%list = S k).
    rewrite count_slept_app, Hc. cbn. lia. }
  unfold stub_info. cbn [resets_after]. rewrite Hs.
  do 4 eexists. split; [reflexivity|].
  split; [reflexivity|]. split; [reflexivity|]. split.
  - unfold py_ne. cbn [py_eqb].
    destruct (Nat.ltb_spec (S k) (S n)) as [Hlt|Hge].
    + cbn. symmetry. apply Nat.eqb_neq. lia.
    + cbn. symmetry. apply Nat.eqb_eq. lia.
  - split.
    + eexists. reflexivity.
    + rewrite app_comm_cons, count_slept_app, Hs. cbn. lia.
Qed.

Lemma poll_loop_stops_at_first_change_witness :
  exists v t',
    poll_loop (stub_session (mkStub 200 200 403 (Some 5%nat))) (krrish "1.5")
              (PStr "sk-user-0") (PStr "2024-01-01T00:00:00") 6 0 PNone
              [Http (new_user_request (PStr (krrish "1.5")) (PInt 10) (PStr "5s"))
                    (mkResponse 200 "created"
                                (Some (PDict [("key", PStr "sk-user-0")])))]
    = (Returns v, t')
    /\ py_ne (PStr "2024-01-01T00:00:00") v = true
    /\ count_slept t' = 5%nat.
Proof.
  destruct (poll_loop_stops_at_first_change
              (stub_session (mkStub 200 200 403 (Some 5%nat))) (krrish "1.5")
              (PStr "sk-user-0") (PStr "2024-01-01T00:00:00") 4 created_then_slept
              6 PNone
              [Http (new_user_request (PStr (krrish "1.5")) (PInt 10) (PStr "5s"))
                    (mkResponse 200 "created"
                                (Some (PDict [("key", PStr "sk-user-0")])))]
              (stub_poll_at 4) ltac:(lia)
              ltac:(split; [eexists; reflexivity|reflexivity]))
    as (v & t' & Hrun & Hv & Hc).
  exists v, t'. split; [exact Hrun|]. split; [exact Hv|exact Hc].
Defined.

(** ** More on the chat helpers *)

Lemma for_each_log_map (prefix : string) (cs : list string) (t : trace) :
  for_each cs (fun chunk => ai_log (prefix ++ chunk) "info") t
  = (Returns tt, (t ++ map (fun chunk => Logged INFO (prefix ++ chunk)) cs)%list).
Proof.
  revert t. induction cs as [|c cs IH]; intro t.
  - cbn. rewrite app_nil_r. reflexivity.
  - cbn [for_each map]. unfold bind at 1. rewrite ai_log_info.
    rewrite IH, <- app_assoc. reflexivity.
Qed.

(** X11.  Each chat helper makes its call first and logs after it.  When
    the call succeeds, [chat_completion] writes one info line with the
    completion and [chat_completion_streaming] one info line per chunk, in
    the order of the chunks (none for an empty stream); both return
    [None].  When the call fails, its exception leaves the helper and
    nothing is logged. *)
Theorem chat_helpers_log (backend : OpenAIBackend) (now : string)
    (session : ClientSession) (key model : string) (t : trace) :
  let client := mkAsyncOpenAI key "http://0.0.0.0:4000" in
  let data := mkChatData model (chat_messages now) false in
  let data' := mkChatData model (chat_messages now) true in
  (forall r, complete backend t client data = inr r ->
     chat_completion backend now session key model t
     = (Returns tt,
        (t ++ [Completion client data;
               Logged INFO ("Chat completion response: " ++ r)])%list))
  /\ (forall e, complete backend t client data = inl e ->
        chat_completion backend now session key model t
        = (Raises e, (t ++ [Completion client data])%list))
  /\ (forall cs, chunks backend t client data' = inr cs ->
        chat_completion_streaming backend now session key model t
        = (Returns tt,
           (t ++ Completion client data'
              :: map (fun chunk => Logged INFO ("Streaming chunk received: " ++ chunk))
                     cs)%list))
  /\ (forall e, chunks backend t client data' = inl e ->
        chat_completion_streaming backend now session key model t
        = (Raises e, (t ++ [Completion client data'])%list)).
Proof.
  cbv zeta. repeat split.
  - intros r Hr. unfold chat_completion, bind, create. cbv zeta.
    unfold proxy_base_url. rewrite Hr, ai_log_info, <- app_assoc. reflexivity.
  - intros e He. unfold chat_completion, bind, create. cbv zeta.
    unfold proxy_base_url. rewrite He. reflexivity.
  - intros cs Hcs. unfold chat_completion_streaming, bind, create_stream. cbv zeta.
    unfold proxy_base_url. rewrite Hcs, for_each_log_map, <- app_assoc. reflexivity.
  - intros e He. unfold chat_completion_streaming, bind, create_stream. cbv zeta.
    unfold proxy_base_url. rewrite He. reflexivity.
Qed.

Lemma chat_helpers_log_witness :
  chat_completion_streaming stub_backend "1.5" (answering (mkResponse 200 "" None))
                            "sk-1234" "gpt-4" []
  = (Returns tt,
     [Completion (mkAsyncOpenAI "sk-1234" "http://0.0.0.0:4000")
                 (mkChatData "gpt-4" (chat_messages "1.5") true);
      Logged INFO "Streaming chunk received: chunk-1";
      Logged INFO "Streaming chunk received: chunk-2"])
  /\ chat_completion (mkBackend (fun _ _ _ => inl (APIError "down"))
                                (fun _ _ _ => inl (APIError "down")))
                     "1.5" (answering (mkResponse 200 "" None)) "sk-1234" "gpt-4" []
     = (Raises (APIError "down"),
        [Completion (mkAsyncOpenAI "sk-1234" "http://0.0.0.0:4000")
                    (mkChatData "gpt-4" (chat_messages "1.5") false)]).
Proof.
  split.
  - apply (proj1 (proj2 (proj2
      (chat_helpers_log stub_backend "1.5" (answering (mkResponse 200 "" None))
                        "sk-1234" "gpt-4" []))) ["chunk-1"; "chunk-2"]).
    reflexivity.
  - apply (proj1 (proj2
      (chat_helpers_log (mkBackend (fun _ _ _ => inl (APIError "down"))
                                   (fun _ _ _ => inl (APIError "down")))
                        "1.5" (answering (mkResponse 200 "" None))
                        "sk-1234" "gpt-4" [])) (APIError "down")).
    reflexivity.
Defined.

(** ** The spend scenario *)

Lemma ai_log_actions (message level : string) (t t' : trace) (u : unit) :
  ai_log message level t = (Returns u, t') -> actions t' = actions t.
Proof.
  destruct (ai_log_returns message level t) as (lvl & msg & ->).
  intro H. injection H as _ <-. rewrite actions_app. cbn. apply app_nil_r.
Qed.

Lemma assert_gt_returns (a b : pyval) (t t' : trace) (u : unit) :
  assert_gt a b t = (Returns u, t') -> py_gt a b = Some true /\ t' = t.
Proof.
  unfold assert_gt, py_assert. destruct (py_gt a b) as [[|]|]; try discriminate.
  unfold ret. intro H. injection H as _ <-. split; reflexivity.
Qed.

(** A lookup whose result yields a spend was answered 200. *)
Lemma lookup_spend_returns (s : ClientSession) (get_user : string)
    (call_user : pyval) (t t1 t2 t3 : trace) (user_info info spend : pyval) :
  get_user_info s get_user call_user None t = (Returns user_info, t1) ->
  subscript user_info "user_info" t1 = (Returns info, t2) ->
  subscript info "spend" t2 = (Returns spend, t3) ->
  let rs := serve s t (user_info_request get_user call_user None) in
  status rs = 200 /\ spend_of rs = Some spend
  /\ actions t3 = (actions t ++ [Http (user_info_request get_user call_user None) rs])%list.
Proof.
  intros Hget H1 H2. cbv zeta.
  apply subscript_returns in H1. destruct H1 as (-> & kvs & -> & L1).
  apply subscript_returns in H2. destruct H2 as (-> & kvs' & -> & L2).
  rewrite get_user_info_run in Hget. cbv zeta in Hget.
  destruct (Z.eqb_spec (status (serve s t
              (user_info_request get_user call_user None))) 200) as [E|E].
  - destruct (json _) as [body|] eqn:J; [|discriminate].
    injection Hget as -> <-. split; [exact E|]. split.
    + unfold spend_of. rewrite J, L1. exact L2.
    + rewrite actions_app. reflexivity.
  - destruct (py_ne call_user (PStr get_user)); discriminate.
Qed.

Lemma actions_logged {A} (f : A -> string) (xs : list A) :
  actions (map (fun x => Logged INFO (f x)) xs) = [].
Proof. induction xs as [|x xs IH]; [reflexivity|exact IH]. Qed.

Lemma chat_completion_actions (backend : OpenAIBackend) (now : string)
    (session : ClientSession) (key model : string) (t t' : trace) (u : unit) :
  chat_completion backend now session key model t = (Returns u, t') ->
  actions t' = (actions t ++ [Completion (mkAsyncOpenAI key "http://0.0.0.0:4000")
                                         (mkChatData model (chat_messages now) false)])%list.
Proof.
  unfold chat_completion, bind, create. cbv zeta.
  destruct (complete backend t _ _) as [e|r]; [discriminate|].
  rewrite ai_log_info. intro H. injection H as _ <-.
  rewrite !actions_app. cbn. rewrite app_nil_r. reflexivity.
Qed.

Lemma chat_completion_streaming_actions (backend : OpenAIBackend) (now : string)
    (session : ClientSession) (key model : string) (t t' : trace) (u : unit) :
  chat_completion_streaming backend now session key model t = (Returns u, t') ->
  actions t' = (actions t ++ [Completion (mkAsyncOpenAI key "http://0.0.0.0:4000")
                                         (mkChatData model (chat_messages now) true)])%list.
Proof.
  unfold chat_completion_streaming, bind, create_stream. cbv zeta.
  destruct (chunks backend t _ _) as [e|cs]; [discriminate|].
  rewrite for_each_log_map. intro H. injection H as _ <-.
  rewrite !actions_app, actions_logged. cbn. rewrite app_nil_r. reflexivity.
Qed.

(** X12.  A run of [test_global_proxy_budget_update] that succeeds has
    done, in this order and nothing else besides logging: a lookup of
    [litellm-proxy-budget] with the admin token, a plain completion with
    that token on [gpt-4], a sleep of 5, the same lookup, a streamed
    completion, a sleep of 5 and the same lookup; the three lookups were
    answered 200 and the spend they carry grew strictly each time. *)
Theorem spend_scenario_success (backend : OpenAIBackend) (str : pyval -> string)
    (now1 now2 : string) (s : ClientSession) (t t' : trace) :
  test_global_proxy_budget_update backend str now1 now2 s t = (Returns tt, t') ->
  let lookup := user_info_request "litellm-proxy-budget" (PStr "sk-1234") None in
  let client := mkAsyncOpenAI "sk-1234" "http://0.0.0.0:4000" in
  exists rs1 rs2 rs3 spend1 spend2 spend3,
    actions t' =
    (actions t ++
       [Http lookup rs1;
        Completion client (mkChatData "gpt-4" (chat_messages now1) false);
        Slept 5;
        Http lookup rs2;
        Completion client (mkChatData "gpt-4" (chat_messages now2) true);
        Slept 5;
        Http lookup rs3])%list
    /\ status rs1 = 200 /\ status rs2 = 200 /\ status rs3 = 200
    /\ spend_of rs1 = Some spend1 /\ spend_of rs2 = Some spend2
    /\ spend_of rs3 = Some spend3
    /\ py_gt spend2 spend1 = Some true /\ py_gt spend3 spend2 = Some true.
Proof.
  intro H. cbv zeta. unfold test_global_proxy_budget_update in H. cbv zeta in H.
  bind_inv H ui1 t1 Hg1. bind_inv H info1 t2 Ha1. bind_inv H spend1 t3 Hb1.
  bind_inv H u1 t4 Hchat. bind_inv H u2 t5 Hsleep1.
  bind_inv H ui2 t6 Hg2. bind_inv H info2 t7 Ha2. bind_inv H spend2 t8 Hb2.
  bind_inv H u3 t9 Hlog1. bind_inv H u4 t10 Hgt1.
  bind_inv H u5 t11 Hstream. bind_inv H u6 t12 Hsleep2.
  bind_inv H ui3 t13 Hg3. bind_inv H info3 t14 Ha3. bind_inv H spend3 t15 Hb3.
  bind_inv H u7 t16 Hlog2.
  destruct (lookup_spend_returns _ _ _ _ _ _ _ _ _ _ Hg1 Ha1 Hb1) as (S1 & P1 & A1).
  destruct (lookup_spend_returns _ _ _ _ _ _ _ _ _ _ Hg2 Ha2 Hb2) as (S2 & P2 & A2).
  destruct (lookup_spend_returns _ _ _ _ _ _ _ _ _ _ Hg3 Ha3 Hb3) as (S3 & P3 & A3).
  apply chat_completion_actions in Hchat.
  apply chat_completion_streaming_actions in Hstream.
  unfold emit in Hsleep1, Hsleep2.
  injection Hsleep1 as _ <-. injection Hsleep2 as _ <-.
  apply ai_log_actions in Hlog1. apply ai_log_actions in Hlog2.
  apply assert_gt_returns in Hgt1. destruct Hgt1 as (G1 & ->).
  apply assert_gt_returns in H. destruct H as (G2 & ->).
  do 3 eexists. exists spend1, spend2, spend3.
  split.
  { rewrite Hlog2, A3, actions_app, Hstream, Hlog1, A2, actions_app, Hchat, A1.
    cbn [actions filter]. rewrite <- !app_assoc. reflexivity. }
  repeat split; assumption.
Qed.

Lemma spend_scenario_success_witness :
  exists rs1 rs2 rs3,
    actions (snd (test_global_proxy_budget_update stub_backend str_scalar
                    "1.5" "2.5" spending_session []))
    = [Http (user_info_request "litellm-proxy-budget" (PStr "sk-1234") None) rs1;
       Completion (mkAsyncOpenAI "sk-1234" "http://0.0.0.0:4000")
                  (mkChatData "gpt-4" (chat_messages "1.5") false);
       Slept 5;
       Http (user_info_request "litellm-proxy-budget" (PStr "sk-1234") None) rs2;
       Completion (mkAsyncOpenAI "sk-1234" "http://0.0.0.0:4000")
                  (mkChatData "gpt-4" (chat_messages "2.5") true);
       Slept 5;
       Http (user_info_request "litellm-proxy-budget" (PStr "sk-1234") None) rs3]
    /\ spend_of rs1 = Some (PInt 0) /\ spend_of rs2 = Some (PInt 1)
    /\ spend_of rs3 = Some (PInt 2).
Proof.
  destruct (spend_scenario_success stub_backend str_scalar "1.5" "2.5"
              spending_session []
              (snd (test_global_proxy_budget_update stub_backend str_scalar
                      "1.5" "2.5" spending_session []))
              ltac:(vm_compute; reflexivity))
    as (rs1 & rs2 & rs3 & sp1 & sp2 & sp3 & HA & _).
  vm_compute in HA. injection HA as <- <- <-.
  do 3 eexists. split; [vm_compute; reflexivity|].
  repeat split.
Defined.

(** X13.  When the first lookup of [test_global_proxy_budget_update] is not
    answered 200, the helper returns the status as data (the admin token is
    not the identifier) and the scenario fails on subscripting that number:
    it raises [TypeError], not an exception that names the status, and no
    completion has been requested. *)
Theorem spend_scenario_denied (backend : OpenAIBackend) (str : pyval -> string)
    (now1 now2 : string) (s : ClientSession) (t : trace) :
  let lookup := user_info_request "litellm-proxy-budget" (PStr "sk-1234") None in
  let rs := serve s t lookup in
  status rs <> 200 ->
  fst (test_global_proxy_budget_update backend str now1 now2 s t) = Raises TypeError
  /\ actions (snd (test_global_proxy_budget_update backend str now1 now2 s t))
     = (actions t ++ [Http lookup rs])%list.
Proof.
  cbv zeta. intro Hne. unfold test_global_proxy_budget_update. cbv zeta.
  erewrite bind_step;
    [|rewrite get_user_info_run; cbv zeta;
      destruct (Z.eqb_spec (status (serve s t
                  (user_info_request "litellm-proxy-budget" (PStr "sk-1234") None)))
                  200) as [E|_]; [contradiction|reflexivity]].
  cbn [subscript]. erewrite bind_raises; [|reflexivity].
  cbn [fst snd]. split; [reflexivity|].
  rewrite !actions_app. cbn. rewrite app_nil_r. reflexivity.
Qed.

Lemma spend_scenario_denied_witness :
  fst (test_global_proxy_budget_update stub_backend str_scalar "1.5" "2.5"
         (answering (mkResponse 401 "no" None)) []) = Raises TypeError.
Proof.
  apply (proj1 (spend_scenario_denied stub_backend str_scalar "1.5" "2.5"
                  (answering (mkResponse 401 "no" None)) [] ltac:(discriminate))).
Defined.

(** ** More on the parallel creation scenario *)

Lemma new_user_returns_written (s : ClientSession) (i : Z)
    (user_id budget budget_duration : pyval) (t t' : trace) (v : pyval) :
  new_user s i user_id budget budget_duration t = (Returns v, t') ->
  written t' =
  (written t ++
     [(INFO, ("Response " ++ str_int i ++ " (Status code: 200): "
                ++ text (serve s t (new_user_request user_id budget budget_duration)))
             %string)])%list.
Proof.
  rewrite new_user_run. cbv zeta.
  destruct (Z.eqb_spec (status (serve s t
              (new_user_request user_id budget budget_duration))) 200) as [E|_];
    [|discriminate].
  destruct (json _) as [body|]; [|discriminate].
  intro H. injection H as _ <-. rewrite written_app, E. reflexivity.
Qed.

Lemma run_tasks_written (s : ClientSession) (schedule : list nat) :
  forall (g : gathered pyval) (t : trace),
    first_exception (fst (run_tasks (user_new_tasks s) schedule g t)) = None ->
    NoDup schedule ->
    (forall k, In k schedule -> ~ In k (finished g)) ->
    Forall (fun k => k < 10)%nat schedule ->
    exists texts,
      List.length texts = List.length schedule
      /\ written (snd (run_tasks (user_new_tasks s) schedule g t)) =
         (written t ++
            map (fun p : nat * string =>
                   (INFO, ("Response " ++ str_int (Z.of_nat (fst p) + 1)
                             ++ " (Status code: 200): " ++ snd p)%string))
                (combine schedule texts))%list.
Proof.
  induction schedule as [|k rest IH]; intros g t Hnone Hnd Hfresh Hk.
  - exists []. cbn. rewrite app_nil_r. split; reflexivity.
  - cbn [run_tasks] in Hnone |- *.
    inversion Hk as [|? ? Hlt Hrest]; subst.
    inversion Hnd as [|? ? Hnotin Hnd']; subst.
    destruct (existsb (Nat.eqb k) (finished g)) eqn:Hmem.
    { apply existsb_exists in Hmem. destruct Hmem as (x & Hx & Hkx).
      apply Nat.eqb_eq in Hkx. subst x.
      contradiction (Hfresh k (or_introl eq_refl) Hx). }
    destruct (nth_error (user_new_tasks s) k) as [task|] eqn:E.
    + apply user_new_tasks_nth in E. destruct E as [_ ->].
      pose proof (new_user_not_running s (Z.of_nat k + 1) PNone PNone PNone t) as Hnr.
      destruct (new_user s (Z.of_nat k + 1) PNone PNone PNone t)
        as [[a|e|] t1] eqn:Hnew; [| |contradiction Hnr; reflexivity].
      * apply new_user_returns_written in Hnew.
        destruct (IH _ t1 Hnone Hnd') as (texts & L & W); [|exact Hrest|].
        { intros j Hj [<-|Hin]; [contradiction|].
          exact (Hfresh j (or_intror Hj) Hin). }
        exists (text (serve s t (new_user_request PNone PNone PNone)) :: texts).
        split; [cbn; rewrite L; reflexivity|].
        rewrite W, Hnew, <- app_assoc. reflexivity.
      * rewrite (first_exception_stays (user_new_tasks s) rest
                   (mkGathered (k :: finished g) (results g)
                               (match first_exception g with
                                | Some e0 => Some e0
                                | None => Some e
                                end)) t1
                   (match first_exception g with Some e0 => e0 | None => e end))
          in Hnone; [discriminate Hnone|].
        cbn. destruct (first_exception g); reflexivity.
    + apply nth_error_None in E.
      change (List.length (user_new_tasks s)) with 10%nat in E. lia.
Qed.

(** X14.  In a run of [test_user_new] that succeeds, the output gains
    exactly one info line per call and no other line, in the order in
    which the responses arrive; the line of a call carries its index
    (1 to 10) and the status 200. *)
Theorem test_user_new_log_order (s : ClientSession) (schedule : list nat)
    (t t' : trace) :
  Permutation (seq 0 10) schedule ->
  test_user_new s schedule t = (Returns tt, t') ->
  exists texts,
    List.length texts = 10%nat
    /\ written t' =
       (written t ++
          map (fun p : nat * string =>
                 (INFO, ("Response " ++ str_int (Z.of_nat (fst p) + 1)
                           ++ " (Status code: 200): " ++ snd p)%string))
              (combine schedule texts))%list.
Proof.
  intros Hperm H. rewrite test_user_new_run in H. cbv zeta in H.
  assert (Hk : Forall (fun k => k < 10)%nat schedule).
  { refine (@Permutation_Forall _ _ _ _ Hperm _). repeat constructor; lia. }
  assert (Hnd : NoDup schedule).
  { apply (Permutation_NoDup Hperm). apply seq_NoDup. }
  destruct (first_exception
              (fst (run_tasks (user_new_tasks s) schedule (mkGathered [] [] None) t)))
    as [e|] eqn:Hnone; [discriminate H|].
  injection H as _ <-.
  destruct (run_tasks_written s schedule (mkGathered [] [] None) t Hnone Hnd
              ltac:(intros k _ []) Hk) as (texts & L & W).
  exists texts. split; [|exact W].
  rewrite L. symmetry. apply (Permutation_length Hperm).
Qed.

Lemma test_user_new_log_order_witness :
  exists texts,
    List.length texts = 10%nat
    /\ written (snd (test_user_new (stub_session (mkStub 200 200 403 None))
                                   [9; 8; 7; 6; 5; 4; 3; 2; 1; 0]%nat []))
       = map (fun p : nat * string =>
                (INFO, ("Response " ++ str_int (Z.of_nat (fst p) + 1)
                          ++ " (Status code: 200): " ++ snd p)%string))
             (combine [9; 8; 7; 6; 5; 4; 3; 2; 1; 0]%nat texts).
Proof.
  apply (test_user_new_log_order (stub_session (mkStub 200 200 403 None))
           [9; 8; 7; 6; 5; 4; 3; 2; 1; 0]%nat []
           (snd (test_user_new (stub_session (mkStub 200 200 403 None))
                               [9; 8; 7; 6; 5; 4; 3; 2; 1; 0]%nat []))
           (Permutation_rev (seq 0 10))).
  vm_compute. reflexivity.
Defined.

(** ** Requests made by the visibility scenario *)

Lemma makes_at_most_ret {A} (a : A) : makes_at_most 0 (ret a).
Proof. intro t. exists []. rewrite app_nil_r. split; [reflexivity|cbn; lia]. Qed.

Lemma makes_at_most_raise {A} (e : exn) : makes_at_most 0 (@raise A e).
Proof. intro t. exists []. rewrite app_nil_r. split; [reflexivity|cbn; lia]. Qed.

Lemma makes_at_most_bind {A B} (a b : nat) (m : M A) (k : A -> M B) :
  makes_at_most a m -> (forall x, makes_at_most b (k x)) ->
  makes_at_most (a + b) (bind m k).
Proof.
  intros Hm Hk t. destruct (Hm t) as (xs & X & L). unfold bind.
  destruct (m t) as [[x|e|] t1]; cbn [snd] in X.
  - destruct (Hk x t1) as (ys & Y & L').
    exists (xs ++ ys)%list. rewrite Y, X, <- app_assoc. split; [reflexivity|].
    rewrite length_app. lia.
  - exists xs. cbn [snd]. split; [exact X|lia].
  - exists xs. cbn [snd]. split; [exact X|lia].
Qed.

Lemma makes_at_most_subscript (v : pyval) (key : string) :
  makes_at_most 0 (subscript v key).
Proof.
  unfold subscript. destruct v; try apply makes_at_most_raise.
  destruct (dict_lookup key kvs);
    [apply makes_at_most_ret|apply makes_at_most_raise].
Qed.

Lemma makes_at_most_new_user (s : ClientSession) (i : Z)
    (user_id budget budget_duration : pyval) :
  makes_at_most 1 (new_user s i user_id budget budget_duration).
Proof.
  intro t. rewrite new_user_run. cbv zeta. eexists [_].
  split; [|cbn; lia].
  destruct (status _ =? 200); cbn [snd].
  - rewrite exchanges_app. reflexivity.
  - rewrite ai_dynamic_error_handling_run. cbn [snd].
    rewrite !exchanges_app. cbn. rewrite app_nil_r. reflexivity.
Qed.

Lemma makes_at_most_get_user_info (s : ClientSession) (get_user : string)
    (call_user : pyval) (view_all : option bool) :
  makes_at_most 1 (get_user_info s get_user call_user view_all).
Proof.
  intro t. rewrite get_user_info_run. cbv zeta. eexists [_].
  split; [|cbn; lia].
  destruct (status _ =? 200); [|destruct (py_ne _ _)]; cbn [snd];
    rewrite !exchanges_app; cbn; rewrite ?app_nil_r; reflexivity.
Qed.

(** X15.  Whatever the server answers and however it ends,
    [test_user_info] makes at most five requests, and the exchanges made
    before it are kept. *)
Theorem test_user_info_at_most_five (s : ClientSession) (now : string) :
  makes_at_most 5 (test_user_info s now).
Proof.
  unfold test_user_info. cbv zeta.
  change 5%nat with (1 + (0 + (1 + (1 + (1 + (0 + (1 + 0)))))))%nat.
  apply makes_at_most_bind; [apply makes_at_most_new_user|]. intro key_gen.
  apply makes_at_most_bind; [apply makes_at_most_subscript|]. intro key.
  apply makes_at_most_bind; [apply makes_at_most_get_user_info|]. intros _.
  apply makes_at_most_bind; [apply makes_at_most_get_user_info|]. intros _.
  apply makes_at_most_bind; [apply makes_at_most_new_user|]. intro key_gen'.
  apply makes_at_most_bind; [apply makes_at_most_subscript|]. intro random_key.
  apply makes_at_most_bind; [apply makes_at_most_get_user_info|]. intro status.
  unfold py_assert. destruct (py_eqb status (PInt 403));
    [apply makes_at_most_ret|apply makes_at_most_raise].
Qed.
